(** * UCI recognition and validation (main.py)

    A shallow embedding of [is_valid_uci] and [extract_uci] of main.py,
    with the two regular expressions they compile and the part of
    Python's [re] and [str] semantics they rely on, and of the functions
    that read and split a PDF document, with the libraries they call
    taken by the outcomes of the calls.

    A character is its Unicode code point and a string the list of its
    characters.  The classifications that Python takes from the Unicode
    database ([\d], [\w], [str.isalpha], [str.upper], [int]) are the
    tables of Unicode 14.0, the version of CPython 3.11. *)

From Stdlib Require Import Ascii String.
From Stdlib Require Import List Sorted Bool Arith ZArith NArith Lia.
Import ListNotations.

Local Open Scope Z_scope.

(** ** The Unicode database *)

Module Unicode.

(** The digit zero of every run of ten decimal digits (category Nd). *)
Definition decimal_zeros : list N :=
  [
   48; 1632; 1776; 1984; 2406; 2534; 2662; 2790;
   2918; 3046; 3174; 3302; 3430; 3558; 3664; 3792;
   3872; 4160; 4240; 6112; 6160; 6470; 6608; 6784;
   6800; 6992; 7088; 7232; 7248; 42528; 43216; 43264;
   43472; 43504; 43600; 44016; 65296; 66720; 68912; 69734;
   69872; 69942; 70096; 70384; 70736; 70864; 71248; 71360;
   71472; 71904; 72016; 72784; 73040; 73120; 92768; 92864;
   93008; 120782; 120792; 120802; 120812; 120822; 123200; 123632;
   125264; 130032
  ]%N.

(** The ranges of the letters ([str.isalpha]). *)
Definition alpha_ranges : list (N * N) :=
  [
   (65, 90); (97, 122); (170, 170); (181, 181);
   (186, 186); (192, 214); (216, 246); (248, 705);
   (710, 721); (736, 740); (748, 748); (750, 750);
   (880, 884); (886, 887); (890, 893); (895, 895);
   (902, 902); (904, 906); (908, 908); (910, 929);
   (931, 1013); (1015, 1153); (1162, 1327); (1329, 1366);
   (1369, 1369); (1376, 1416); (1488, 1514); (1519, 1522);
   (1568, 1610); (1646, 1647); (1649, 1747); (1749, 1749);
   (1765, 1766); (1774, 1775); (1786, 1788); (1791, 1791);
   (1808, 1808); (1810, 1839); (1869, 1957); (1969, 1969);
   (1994, 2026); (2036, 2037); (2042, 2042); (2048, 2069);
   (2074, 2074); (2084, 2084); (2088, 2088); (2112, 2136);
   (2144, 2154); (2160, 2183); (2185, 2190); (2208, 2249);
   (2308, 2361); (2365, 2365); (2384, 2384); (2392, 2401);
   (2417, 2432); (2437, 2444); (2447, 2448); (2451, 2472);
   (2474, 2480); (2482, 2482); (2486, 2489); (2493, 2493);
   (2510, 2510); (2524, 2525); (2527, 2529); (2544, 2545);
   (2556, 2556); (2565, 2570); (2575, 2576); (2579, 2600);
   (2602, 2608); (2610, 2611); (2613, 2614); (2616, 2617);
   (2649, 2652); (2654, 2654); (2674, 2676); (2693, 2701);
   (2703, 2705); (2707, 2728); (2730, 2736); (2738, 2739);
   (2741, 2745); (2749, 2749); (2768, 2768); (2784, 2785);
   (2809, 2809); (2821, 2828); (2831, 2832); (2835, 2856);
   (2858, 2864); (2866, 2867); (2869, 2873); (2877, 2877);
   (2908, 2909); (2911, 2913); (2929, 2929); (2947, 2947);
   (2949, 2954); (2958, 2960); (2962, 2965); (2969, 2970);
   (2972, 2972); (2974, 2975); (2979, 2980); (2984, 2986);
   (2990, 3001); (3024, 3024); (3077, 3084); (3086, 3088);
   (3090, 3112); (3114, 3129); (3133, 3133); (3160, 3162);
   (3165, 3165); (3168, 3169); (3200, 3200); (3205, 3212);
   (3214, 3216); (3218, 3240); (3242, 3251); (3253, 3257);
   (3261, 3261); (3293, 3294); (3296, 3297); (3313, 3314);
   (3332, 3340); (3342, 3344); (3346, 3386); (3389, 3389);
   (3406, 3406); (3412, 3414); (3423, 3425); (3450, 3455);
   (3461, 3478); (3482, 3505); (3507, 3515); (3517, 3517);
   (3520, 3526); (3585, 3632); (3634, 3635); (3648, 3654);
   (3713, 3714); (3716, 3716); (3718, 3722); (3724, 3747);
   (3749, 3749); (3751, 3760); (3762, 3763); (3773, 3773);
   (3776, 3780); (3782, 3782); (3804, 3807); (3840, 3840);
   (3904, 3911); (3913, 3948); (3976, 3980); (4096, 4138);
   (4159, 4159); (4176, 4181); (4186, 4189); (4193, 4193);
   (4197, 4198); (4206, 4208); (4213, 4225); (4238, 4238);
   (4256, 4293); (4295, 4295); (4301, 4301); (4304, 4346);
   (4348, 4680); (4682, 4685); (4688, 4694); (4696, 4696);
   (4698, 4701); (4704, 4744); (4746, 4749); (4752, 4784);
   (4786, 4789); (4792, 4798); (4800, 4800); (4802, 4805);
   (4808, 4822); (4824, 4880); (4882, 4885); (4888, 4954);
   (4992, 5007); (5024, 5109); (5112, 5117); (5121, 5740);
   (5743, 5759); (5761, 5786); (5792, 5866); (5873, 5880);
   (5888, 5905); (5919, 5937); (5952, 5969); (5984, 5996);
   (5998, 6000); (6016, 6067); (6103, 6103); (6108, 6108);
   (6176, 6264); (6272, 6276); (6279, 6312); (6314, 6314);
   (6320, 6389); (6400, 6430); (6480, 6509); (6512, 6516);
   (6528, 6571); (6576, 6601); (6656, 6678); (6688, 6740);
   (6823, 6823); (6917, 6963); (6981, 6988); (7043, 7072);
   (7086, 7087); (7098, 7141); (7168, 7203); (7245, 7247);
   (7258, 7293); (7296, 7304); (7312, 7354); (7357, 7359);
   (7401, 7404); (7406, 7411); (7413, 7414); (7418, 7418);
   (7424, 7615); (7680, 7957); (7960, 7965); (7968, 8005);
   (8008, 8013); (8016, 8023); (8025, 8025); (8027, 8027);
   (8029, 8029); (8031, 8061); (8064, 8116); (8118, 8124);
   (8126, 8126); (8130, 8132); (8134, 8140); (8144, 8147);
   (8150, 8155); (8160, 8172); (8178, 8180); (8182, 8188);
   (8305, 8305); (8319, 8319); (8336, 8348); (8450, 8450);
   (8455, 8455); (8458, 8467); (8469, 8469); (8473, 8477);
   (8484, 8484); (8486, 8486); (8488, 8488); (8490, 8493);
   (8495, 8505); (8508, 8511); (8517, 8521); (8526, 8526);
   (8579, 8580); (11264, 11492); (11499, 11502); (11506, 11507);
   (11520, 11557); (11559, 11559); (11565, 11565); (11568, 11623);
   (11631, 11631); (11648, 11670); (11680, 11686); (11688, 11694);
   (11696, 11702); (11704, 11710); (11712, 11718); (11720, 11726);
   (11728, 11734); (11736, 11742); (11823, 11823); (12293, 12294);
   (12337, 12341); (12347, 12348); (12353, 12438); (12445, 12447);
   (12449, 12538); (12540, 12543); (12549, 12591); (12593, 12686);
   (12704, 12735); (12784, 12799); (13312, 19903); (19968, 42124);
   (42192, 42237); (42240, 42508); (42512, 42527); (42538, 42539);
   (42560, 42606); (42623, 42653); (42656, 42725); (42775, 42783);
   (42786, 42888); (42891, 42954); (42960, 42961); (42963, 42963);
   (42965, 42969); (42994, 43009); (43011, 43013); (43015, 43018);
   (43020, 43042); (43072, 43123); (43138, 43187); (43250, 43255);
   (43259, 43259); (43261, 43262); (43274, 43301); (43312, 43334);
   (43360, 43388); (43396, 43442); (43471, 43471); (43488, 43492);
   (43494, 43503); (43514, 43518); (43520, 43560); (43584, 43586);
   (43588, 43595); (43616, 43638); (43642, 43642); (43646, 43695);
   (43697, 43697); (43701, 43702); (43705, 43709); (43712, 43712);
   (43714, 43714); (43739, 43741); (43744, 43754); (43762, 43764);
   (43777, 43782); (43785, 43790); (43793, 43798); (43808, 43814);
   (43816, 43822); (43824, 43866); (43868, 43881); (43888, 44002);
   (44032, 55203); (55216, 55238); (55243, 55291); (63744, 64109);
   (64112, 64217); (64256, 64262); (64275, 64279); (64285, 64285);
   (64287, 64296); (64298, 64310); (64312, 64316); (64318, 64318);
   (64320, 64321); (64323, 64324); (64326, 64433); (64467, 64829);
   (64848, 64911); (64914, 64967); (65008, 65019); (65136, 65140);
   (65142, 65276); (65313, 65338); (65345, 65370); (65382, 65470);
   (65474, 65479); (65482, 65487); (65490, 65495); (65498, 65500);
   (65536, 65547); (65549, 65574); (65576, 65594); (65596, 65597);
   (65599, 65613); (65616, 65629); (65664, 65786); (66176, 66204);
   (66208, 66256); (66304, 66335); (66349, 66368); (66370, 66377);
   (66384, 66421); (66432, 66461); (66464, 66499); (66504, 66511);
   (66560, 66717); (66736, 66771); (66776, 66811); (66816, 66855);
   (66864, 66915); (66928, 66938); (66940, 66954); (66956, 66962);
   (66964, 66965); (66967, 66977); (66979, 66993); (66995, 67001);
   (67003, 67004); (67072, 67382); (67392, 67413); (67424, 67431);
   (67456, 67461); (67463, 67504); (67506, 67514); (67584, 67589);
   (67592, 67592); (67594, 67637); (67639, 67640); (67644, 67644);
   (67647, 67669); (67680, 67702); (67712, 67742); (67808, 67826);
   (67828, 67829); (67840, 67861); (67872, 67897); (67968, 68023);
   (68030, 68031); (68096, 68096); (68112, 68115); (68117, 68119);
   (68121, 68149); (68192, 68220); (68224, 68252); (68288, 68295);
   (68297, 68324); (68352, 68405); (68416, 68437); (68448, 68466);
   (68480, 68497); (68608, 68680); (68736, 68786); (68800, 68850);
   (68864, 68899); (69248, 69289); (69296, 69297); (69376, 69404);
   (69415, 69415); (69424, 69445); (69488, 69505); (69552, 69572);
   (69600, 69622); (69635, 69687); (69745, 69746); (69749, 69749);
   (69763, 69807); (69840, 69864); (69891, 69926); (69956, 69956);
   (69959, 69959); (69968, 70002); (70006, 70006); (70019, 70066);
   (70081, 70084); (70106, 70106); (70108, 70108); (70144, 70161);
   (70163, 70187); (70272, 70278); (70280, 70280); (70282, 70285);
   (70287, 70301); (70303, 70312); (70320, 70366); (70405, 70412);
   (70415, 70416); (70419, 70440); (70442, 70448); (70450, 70451);
   (70453, 70457); (70461, 70461); (70480, 70480); (70493, 70497);
   (70656, 70708); (70727, 70730); (70751, 70753); (70784, 70831);
   (70852, 70853); (70855, 70855); (71040, 71086); (71128, 71131);
   (71168, 71215); (71236, 71236); (71296, 71338); (71352, 71352);
   (71424, 71450); (71488, 71494); (71680, 71723); (71840, 71903);
   (71935, 71942); (71945, 71945); (71948, 71955); (71957, 71958);
   (71960, 71983); (71999, 71999); (72001, 72001); (72096, 72103);
   (72106, 72144); (72161, 72161); (72163, 72163); (72192, 72192);
   (72203, 72242); (72250, 72250); (72272, 72272); (72284, 72329);
   (72349, 72349); (72368, 72440); (72704, 72712); (72714, 72750);
   (72768, 72768); (72818, 72847); (72960, 72966); (72968, 72969);
   (72971, 73008); (73030, 73030); (73056, 73061); (73063, 73064);
   (73066, 73097); (73112, 73112); (73440, 73458); (73648, 73648);
   (73728, 74649); (74880, 75075); (77712, 77808); (77824, 78894);
   (82944, 83526); (92160, 92728); (92736, 92766); (92784, 92862);
   (92880, 92909); (92928, 92975); (92992, 92995); (93027, 93047);
   (93053, 93071); (93760, 93823); (93952, 94026); (94032, 94032);
   (94099, 94111); (94176, 94177); (94179, 94179); (94208, 100343);
   (100352, 101589); (101632, 101640); (110576, 110579); (110581, 110587);
   (110589, 110590); (110592, 110882); (110928, 110930); (110948, 110951);
   (110960, 111355); (113664, 113770); (113776, 113788); (113792, 113800);
   (113808, 113817); (119808, 119892); (119894, 119964); (119966, 119967);
   (119970, 119970); (119973, 119974); (119977, 119980); (119982, 119993);
   (119995, 119995); (119997, 120003); (120005, 120069); (120071, 120074);
   (120077, 120084); (120086, 120092); (120094, 120121); (120123, 120126);
   (120128, 120132); (120134, 120134); (120138, 120144); (120146, 120485);
   (120488, 120512); (120514, 120538); (120540, 120570); (120572, 120596);
   (120598, 120628); (120630, 120654); (120656, 120686); (120688, 120712);
   (120714, 120744); (120746, 120770); (120772, 120779); (122624, 122654);
   (123136, 123180); (123191, 123197); (123214, 123214); (123536, 123565);
   (123584, 123627); (124896, 124902); (124904, 124907); (124909, 124910);
   (124912, 124926); (124928, 125124); (125184, 125251); (125259, 125259);
   (126464, 126467); (126469, 126495); (126497, 126498); (126500, 126500);
   (126503, 126503); (126505, 126514); (126516, 126519); (126521, 126521);
   (126523, 126523); (126530, 126530); (126535, 126535); (126537, 126537);
   (126539, 126539); (126541, 126543); (126545, 126546); (126548, 126548);
   (126551, 126551); (126553, 126553); (126555, 126555); (126557, 126557);
   (126559, 126559); (126561, 126562); (126564, 126564); (126567, 126570);
   (126572, 126578); (126580, 126583); (126585, 126588); (126590, 126590);
   (126592, 126601); (126603, 126619); (126625, 126627); (126629, 126633);
   (126635, 126651); (131072, 173791); (173824, 177976); (177984, 178205);
   (178208, 183969); (183984, 191456); (194560, 195101); (196608, 201546)
  ]%N.

(** The ranges of the numeric characters ([str.isnumeric]). *)
Definition numeric_ranges : list (N * N) :=
  [
   (48, 57); (178, 179); (185, 185); (188, 190);
   (1632, 1641); (1776, 1785); (1984, 1993); (2406, 2415);
   (2534, 2543); (2548, 2553); (2662, 2671); (2790, 2799);
   (2918, 2927); (2930, 2935); (3046, 3058); (3174, 3183);
   (3192, 3198); (3302, 3311); (3416, 3422); (3430, 3448);
   (3558, 3567); (3664, 3673); (3792, 3801); (3872, 3891);
   (4160, 4169); (4240, 4249); (4969, 4988); (5870, 5872);
   (6112, 6121); (6128, 6137); (6160, 6169); (6470, 6479);
   (6608, 6618); (6784, 6793); (6800, 6809); (6992, 7001);
   (7088, 7097); (7232, 7241); (7248, 7257); (8304, 8304);
   (8308, 8313); (8320, 8329); (8528, 8578); (8581, 8585);
   (9312, 9371); (9450, 9471); (10102, 10131); (11517, 11517);
   (12295, 12295); (12321, 12329); (12344, 12346); (12690, 12693);
   (12832, 12841); (12872, 12879); (12881, 12895); (12928, 12937);
   (12977, 12991); (13317, 13317); (13443, 13443); (14378, 14378);
   (15181, 15181); (19968, 19968); (19971, 19971); (19975, 19975);
   (19977, 19977); (20061, 20061); (20108, 20108); (20116, 20116);
   (20118, 20118); (20159, 20160); (20191, 20191); (20200, 20200);
   (20237, 20237); (20336, 20336); (20740, 20740); (20806, 20806);
   (20841, 20841); (20843, 20843); (20845, 20845); (21313, 21313);
   (21315, 21317); (21324, 21324); (21441, 21444); (22235, 22235);
   (22769, 22769); (22777, 22777); (24186, 24186); (24318, 24319);
   (24332, 24334); (24336, 24336); (25342, 25342); (25420, 25420);
   (26578, 26578); (28422, 28422); (29590, 29590); (30334, 30334);
   (32902, 32902); (33836, 33836); (36014, 36014); (36019, 36019);
   (36144, 36144); (38433, 38433); (38470, 38470); (38476, 38476);
   (38520, 38520); (38646, 38646); (42528, 42537); (42726, 42735);
   (43056, 43061); (43216, 43225); (43264, 43273); (43472, 43481);
   (43504, 43513); (43600, 43609); (44016, 44025); (63851, 63851);
   (63859, 63859); (63864, 63864); (63922, 63922); (63953, 63953);
   (63955, 63955); (63997, 63997); (65296, 65305); (65799, 65843);
   (65856, 65912); (65930, 65931); (66273, 66299); (66336, 66339);
   (66369, 66369); (66378, 66378); (66513, 66517); (66720, 66729);
   (67672, 67679); (67705, 67711); (67751, 67759); (67835, 67839);
   (67862, 67867); (68028, 68029); (68032, 68047); (68050, 68095);
   (68160, 68168); (68221, 68222); (68253, 68255); (68331, 68335);
   (68440, 68447); (68472, 68479); (68521, 68527); (68858, 68863);
   (68912, 68921); (69216, 69246); (69405, 69414); (69457, 69460);
   (69573, 69579); (69714, 69743); (69872, 69881); (69942, 69951);
   (70096, 70105); (70113, 70132); (70384, 70393); (70736, 70745);
   (70864, 70873); (71248, 71257); (71360, 71369); (71472, 71483);
   (71904, 71922); (72016, 72025); (72784, 72812); (73040, 73049);
   (73120, 73129); (73664, 73684); (74752, 74862); (92768, 92777);
   (92864, 92873); (93008, 93017); (93019, 93025); (93824, 93846);
   (119520, 119539); (119648, 119672); (120782, 120831); (123200, 123209);
   (123632, 123641); (125127, 125135); (125264, 125273); (126065, 126123);
   (126125, 126127); (126129, 126132); (126209, 126253); (126255, 126269);
   (127232, 127244); (130032, 130041); (131073, 131073); (131172, 131172);
   (131298, 131298); (131361, 131361); (133418, 133418); (133507, 133507);
   (133516, 133516); (133532, 133532); (133866, 133866); (133885, 133885);
   (133913, 133913); (140176, 140176); (141720, 141720); (146203, 146203);
   (156269, 156269); (194704, 194704)
  ]%N.

(** Uppercase of one character: [(lo, hi, step, delta)] maps every
    [step]-th character from [lo] to [hi] to the character [delta]
    further. *)
Definition upper_ranges : list (N * N * N * Z) :=
  [
   (97%N, 122%N, 1%N, -32%Z); (181%N, 181%N, 1%N, 743%Z);
   (224%N, 246%N, 1%N, -32%Z); (248%N, 254%N, 1%N, -32%Z);
   (255%N, 255%N, 1%N, 121%Z); (257%N, 303%N, 2%N, -1%Z);
   (305%N, 305%N, 1%N, -232%Z); (307%N, 311%N, 2%N, -1%Z);
   (314%N, 328%N, 2%N, -1%Z); (331%N, 375%N, 2%N, -1%Z);
   (378%N, 382%N, 2%N, -1%Z); (383%N, 383%N, 1%N, -300%Z);
   (384%N, 384%N, 1%N, 195%Z); (387%N, 389%N, 2%N, -1%Z);
   (392%N, 392%N, 1%N, -1%Z); (396%N, 396%N, 1%N, -1%Z);
   (402%N, 402%N, 1%N, -1%Z); (405%N, 405%N, 1%N, 97%Z);
   (409%N, 409%N, 1%N, -1%Z); (410%N, 410%N, 1%N, 163%Z);
   (414%N, 414%N, 1%N, 130%Z); (417%N, 421%N, 2%N, -1%Z);
   (424%N, 424%N, 1%N, -1%Z); (429%N, 429%N, 1%N, -1%Z);
   (432%N, 432%N, 1%N, -1%Z); (436%N, 438%N, 2%N, -1%Z);
   (441%N, 441%N, 1%N, -1%Z); (445%N, 445%N, 1%N, -1%Z);
   (447%N, 447%N, 1%N, 56%Z); (453%N, 453%N, 1%N, -1%Z);
   (454%N, 454%N, 1%N, -2%Z); (456%N, 456%N, 1%N, -1%Z);
   (457%N, 457%N, 1%N, -2%Z); (459%N, 459%N, 1%N, -1%Z);
   (460%N, 460%N, 1%N, -2%Z); (462%N, 476%N, 2%N, -1%Z);
   (477%N, 477%N, 1%N, -79%Z); (479%N, 495%N, 2%N, -1%Z);
   (498%N, 498%N, 1%N, -1%Z); (499%N, 499%N, 1%N, -2%Z);
   (501%N, 501%N, 1%N, -1%Z); (505%N, 543%N, 2%N, -1%Z);
   (547%N, 563%N, 2%N, -1%Z); (572%N, 572%N, 1%N, -1%Z);
   (575%N, 576%N, 1%N, 10815%Z); (578%N, 578%N, 1%N, -1%Z);
   (583%N, 591%N, 2%N, -1%Z); (592%N, 592%N, 1%N, 10783%Z);
   (593%N, 593%N, 1%N, 10780%Z); (594%N, 594%N, 1%N, 10782%Z);
   (595%N, 595%N, 1%N, -210%Z); (596%N, 596%N, 1%N, -206%Z);
   (598%N, 599%N, 1%N, -205%Z); (601%N, 601%N, 1%N, -202%Z);
   (603%N, 603%N, 1%N, -203%Z); (604%N, 604%N, 1%N, 42319%Z);
   (608%N, 608%N, 1%N, -205%Z); (609%N, 609%N, 1%N, 42315%Z);
   (611%N, 611%N, 1%N, -207%Z); (613%N, 613%N, 1%N, 42280%Z);
   (614%N, 614%N, 1%N, 42308%Z); (616%N, 616%N, 1%N, -209%Z);
   (617%N, 617%N, 1%N, -211%Z); (618%N, 618%N, 1%N, 42308%Z);
   (619%N, 619%N, 1%N, 10743%Z); (620%N, 620%N, 1%N, 42305%Z);
   (623%N, 623%N, 1%N, -211%Z); (625%N, 625%N, 1%N, 10749%Z);
   (626%N, 626%N, 1%N, -213%Z); (629%N, 629%N, 1%N, -214%Z);
   (637%N, 637%N, 1%N, 10727%Z); (640%N, 640%N, 1%N, -218%Z);
   (642%N, 642%N, 1%N, 42307%Z); (643%N, 643%N, 1%N, -218%Z);
   (647%N, 647%N, 1%N, 42282%Z); (648%N, 648%N, 1%N, -218%Z);
   (649%N, 649%N, 1%N, -69%Z); (650%N, 651%N, 1%N, -217%Z);
   (652%N, 652%N, 1%N, -71%Z); (658%N, 658%N, 1%N, -219%Z);
   (669%N, 669%N, 1%N, 42261%Z); (670%N, 670%N, 1%N, 42258%Z);
   (837%N, 837%N, 1%N, 84%Z); (881%N, 883%N, 2%N, -1%Z);
   (887%N, 887%N, 1%N, -1%Z); (891%N, 893%N, 1%N, 130%Z);
   (940%N, 940%N, 1%N, -38%Z); (941%N, 943%N, 1%N, -37%Z);
   (945%N, 961%N, 1%N, -32%Z); (962%N, 962%N, 1%N, -31%Z);
   (963%N, 971%N, 1%N, -32%Z); (972%N, 972%N, 1%N, -64%Z);
   (973%N, 974%N, 1%N, -63%Z); (976%N, 976%N, 1%N, -62%Z);
   (977%N, 977%N, 1%N, -57%Z); (981%N, 981%N, 1%N, -47%Z);
   (982%N, 982%N, 1%N, -54%Z); (983%N, 983%N, 1%N, -8%Z);
   (985%N, 1007%N, 2%N, -1%Z); (1008%N, 1008%N, 1%N, -86%Z);
   (1009%N, 1009%N, 1%N, -80%Z); (1010%N, 1010%N, 1%N, 7%Z);
   (1011%N, 1011%N, 1%N, -116%Z); (1013%N, 1013%N, 1%N, -96%Z);
   (1016%N, 1016%N, 1%N, -1%Z); (1019%N, 1019%N, 1%N, -1%Z);
   (1072%N, 1103%N, 1%N, -32%Z); (1104%N, 1119%N, 1%N, -80%Z);
   (1121%N, 1153%N, 2%N, -1%Z); (1163%N, 1215%N, 2%N, -1%Z);
   (1218%N, 1230%N, 2%N, -1%Z); (1231%N, 1231%N, 1%N, -15%Z);
   (1233%N, 1327%N, 2%N, -1%Z); (1377%N, 1414%N, 1%N, -48%Z);
   (4304%N, 4346%N, 1%N, 3008%Z); (4349%N, 4351%N, 1%N, 3008%Z);
   (5112%N, 5117%N, 1%N, -8%Z); (7296%N, 7296%N, 1%N, -6254%Z);
   (7297%N, 7297%N, 1%N, -6253%Z); (7298%N, 7298%N, 1%N, -6244%Z);
   (7299%N, 7300%N, 1%N, -6242%Z); (7301%N, 7301%N, 1%N, -6243%Z);
   (7302%N, 7302%N, 1%N, -6236%Z); (7303%N, 7303%N, 1%N, -6181%Z);
   (7304%N, 7304%N, 1%N, 35266%Z); (7545%N, 7545%N, 1%N, 35332%Z);
   (7549%N, 7549%N, 1%N, 3814%Z); (7566%N, 7566%N, 1%N, 35384%Z);
   (7681%N, 7829%N, 2%N, -1%Z); (7835%N, 7835%N, 1%N, -59%Z);
   (7841%N, 7935%N, 2%N, -1%Z); (7936%N, 7943%N, 1%N, 8%Z);
   (7952%N, 7957%N, 1%N, 8%Z); (7968%N, 7975%N, 1%N, 8%Z);
   (7984%N, 7991%N, 1%N, 8%Z); (8000%N, 8005%N, 1%N, 8%Z);
   (8017%N, 8023%N, 2%N, 8%Z); (8032%N, 8039%N, 1%N, 8%Z);
   (8048%N, 8049%N, 1%N, 74%Z); (8050%N, 8053%N, 1%N, 86%Z);
   (8054%N, 8055%N, 1%N, 100%Z); (8056%N, 8057%N, 1%N, 128%Z);
   (8058%N, 8059%N, 1%N, 112%Z); (8060%N, 8061%N, 1%N, 126%Z);
   (8112%N, 8113%N, 1%N, 8%Z); (8126%N, 8126%N, 1%N, -7205%Z);
   (8144%N, 8145%N, 1%N, 8%Z); (8160%N, 8161%N, 1%N, 8%Z);
   (8165%N, 8165%N, 1%N, 7%Z); (8526%N, 8526%N, 1%N, -28%Z);
   (8560%N, 8575%N, 1%N, -16%Z); (8580%N, 8580%N, 1%N, -1%Z);
   (9424%N, 9449%N, 1%N, -26%Z); (11312%N, 11359%N, 1%N, -48%Z);
   (11361%N, 11361%N, 1%N, -1%Z); (11365%N, 11365%N, 1%N, -10795%Z);
   (11366%N, 11366%N, 1%N, -10792%Z); (11368%N, 11372%N, 2%N, -1%Z);
   (11379%N, 11379%N, 1%N, -1%Z); (11382%N, 11382%N, 1%N, -1%Z);
   (11393%N, 11491%N, 2%N, -1%Z); (11500%N, 11502%N, 2%N, -1%Z);
   (11507%N, 11507%N, 1%N, -1%Z); (11520%N, 11557%N, 1%N, -7264%Z);
   (11559%N, 11559%N, 1%N, -7264%Z); (11565%N, 11565%N, 1%N, -7264%Z);
   (42561%N, 42605%N, 2%N, -1%Z); (42625%N, 42651%N, 2%N, -1%Z);
   (42787%N, 42799%N, 2%N, -1%Z); (42803%N, 42863%N, 2%N, -1%Z);
   (42874%N, 42876%N, 2%N, -1%Z); (42879%N, 42887%N, 2%N, -1%Z);
   (42892%N, 42892%N, 1%N, -1%Z); (42897%N, 42899%N, 2%N, -1%Z);
   (42900%N, 42900%N, 1%N, 48%Z); (42903%N, 42921%N, 2%N, -1%Z);
   (42933%N, 42947%N, 2%N, -1%Z); (42952%N, 42954%N, 2%N, -1%Z);
   (42961%N, 42961%N, 1%N, -1%Z); (42967%N, 42969%N, 2%N, -1%Z);
   (42998%N, 42998%N, 1%N, -1%Z); (43859%N, 43859%N, 1%N, -928%Z);
   (43888%N, 43967%N, 1%N, -38864%Z); (65345%N, 65370%N, 1%N, -32%Z);
   (66600%N, 66639%N, 1%N, -40%Z); (66776%N, 66811%N, 1%N, -40%Z);
   (66967%N, 67003%N, 2%N, -39%Z); (66968%N, 66977%N, 1%N, -39%Z);
   (66980%N, 66993%N, 1%N, -39%Z); (66996%N, 67001%N, 1%N, -39%Z);
   (67004%N, 67004%N, 1%N, -39%Z); (68800%N, 68850%N, 1%N, -64%Z);
   (71872%N, 71903%N, 1%N, -32%Z); (93792%N, 93823%N, 1%N, -32%Z);
   (125218%N, 125251%N, 1%N, -34%Z)
  ].

(** The characters whose uppercase is more than one character. *)
Definition upper_special : list (N * list N) :=
  [
   (223, [83; 83]); (329, [700; 78]);
   (496, [74; 780]); (912, [921; 776; 769]);
   (944, [933; 776; 769]); (1415, [1333; 1362]);
   (7830, [72; 817]); (7831, [84; 776]);
   (7832, [87; 778]); (7833, [89; 778]);
   (7834, [65; 702]); (8016, [933; 787]);
   (8018, [933; 787; 768]); (8020, [933; 787; 769]);
   (8022, [933; 787; 834]); (8064, [7944; 921]);
   (8065, [7945; 921]); (8066, [7946; 921]);
   (8067, [7947; 921]); (8068, [7948; 921]);
   (8069, [7949; 921]); (8070, [7950; 921]);
   (8071, [7951; 921]); (8072, [7944; 921]);
   (8073, [7945; 921]); (8074, [7946; 921]);
   (8075, [7947; 921]); (8076, [7948; 921]);
   (8077, [7949; 921]); (8078, [7950; 921]);
   (8079, [7951; 921]); (8080, [7976; 921]);
   (8081, [7977; 921]); (8082, [7978; 921]);
   (8083, [7979; 921]); (8084, [7980; 921]);
   (8085, [7981; 921]); (8086, [7982; 921]);
   (8087, [7983; 921]); (8088, [7976; 921]);
   (8089, [7977; 921]); (8090, [7978; 921]);
   (8091, [7979; 921]); (8092, [7980; 921]);
   (8093, [7981; 921]); (8094, [7982; 921]);
   (8095, [7983; 921]); (8096, [8040; 921]);
   (8097, [8041; 921]); (8098, [8042; 921]);
   (8099, [8043; 921]); (8100, [8044; 921]);
   (8101, [8045; 921]); (8102, [8046; 921]);
   (8103, [8047; 921]); (8104, [8040; 921]);
   (8105, [8041; 921]); (8106, [8042; 921]);
   (8107, [8043; 921]); (8108, [8044; 921]);
   (8109, [8045; 921]); (8110, [8046; 921]);
   (8111, [8047; 921]); (8114, [8122; 921]);
   (8115, [913; 921]); (8116, [902; 921]);
   (8118, [913; 834]); (8119, [913; 834; 921]);
   (8124, [913; 921]); (8130, [8138; 921]);
   (8131, [919; 921]); (8132, [905; 921]);
   (8134, [919; 834]); (8135, [919; 834; 921]);
   (8140, [919; 921]); (8146, [921; 776; 768]);
   (8147, [921; 776; 769]); (8150, [921; 834]);
   (8151, [921; 776; 834]); (8162, [933; 776; 768]);
   (8163, [933; 776; 769]); (8164, [929; 787]);
   (8166, [933; 834]); (8167, [933; 776; 834]);
   (8178, [8186; 921]); (8179, [937; 921]);
   (8180, [911; 921]); (8182, [937; 834]);
   (8183, [937; 834; 921]); (8188, [937; 921]);
   (64256, [70; 70]); (64257, [70; 73]);
   (64258, [70; 76]); (64259, [70; 70; 73]);
   (64260, [70; 70; 76]); (64261, [83; 84]);
   (64262, [83; 84]); (64275, [1348; 1350]);
   (64276, [1348; 1333]); (64277, [1348; 1339]);
   (64278, [1358; 1350]); (64279, [1348; 1341])
  ]%N.

End Unicode.

(** ** Characters and strings *)

Definition char : Type := N.

Definition pystr : Type := list char.

(** The character of a one-byte literal. *)
Definition ch (a : ascii) : char := N_of_ascii a.

Arguments ch a%_char.

Definition str (s : string) : pystr := map ch (list_ascii_of_string s).

Definition code (c : char) : N := c.

Definition between (lo hi : N) (c : char) : bool :=
  ((lo <=? code c) && (code c <=? hi))%N.

Definition in_ranges (ranges : list (N * N)) (c : char) : bool :=
  existsb (fun r => between (fst r) (snd r) c) ranges.

(** The value of a decimal digit of any script, as [int] reads it. *)
Definition decimal_value (c : char) : option Z :=
  match find (fun z => between z (z + 9) c) Unicode.decimal_zeros with
  | Some z => Some (Z.of_N (code c) - Z.of_N z)
  | None => None
  end.

(** [str.isdecimal], the class [\d] of [re]: Unicode category Nd. *)
Definition isdecimal (c : char) : bool :=
  match decimal_value c with
  | Some _ => true
  | None => false
  end.

(** Every decimal digit, run by run. *)
Definition all_decimals : list char :=
  flat_map (fun z => map (fun k => (z + N.of_nat k)%N) (seq 0 10))
           Unicode.decimal_zeros.

(** The characters of one byte. *)
Definition bytes : list char := map N.of_nat (seq 0 256).

(** [str.isalpha] *)
Definition isalpha (c : char) : bool := in_ranges Unicode.alpha_ranges c.

(** [str.isnumeric] *)
Definition isnumeric (c : char) : bool := in_ranges Unicode.numeric_ranges c.

(** [str.isalnum]: a letter, a decimal digit or another numeric
    character. *)
Definition isalnum (c : char) : bool :=
  isalpha c || isdecimal c || isnumeric c.

(** The class [\w] of [re]: alphanumeric or underscore. *)
Definition is_word (c : char) : bool := isalnum c || between 95 95 c.

(** [c.upper()] for a one-character string, as the code points of the
    result. *)
Definition upper (c : char) : list N :=
  match find (fun e => N.eqb (fst e) (code c)) Unicode.upper_special with
  | Some (_, u) => u
  | None =>
      match find (fun e =>
                    match e with
                    | (lo, hi, step, _) =>
                        between lo hi c && N.eqb ((code c - lo) mod step) 0
                    end) Unicode.upper_ranges with
      | Some (_, _, _, delta) => [Z.to_N (Z.of_N (code c) + delta)]
      | None => [code c]
      end
  end.

(** [==] on strings given by their code points. *)
Fixpoint codes_eqb (a b : list N) : bool :=
  match a, b with
  | [], [] => true
  | x :: a', y :: b' => N.eqb x y && codes_eqb a' b'
  | _, _ => false
  end.

(** ** Exceptions *)

Inductive exn : Type := KeyError | ValueError | IndexError.

Inductive result (A : Type) : Type :=
| Ok (a : A)
| Raise (e : exn).

Arguments Ok {A} a.
Arguments Raise {A} e.

Definition bind {A B : Type} (m : result A) (k : A -> result B) : result B :=
  match m with
  | Ok a => k a
  | Raise e => Raise e
  end.

Notation "x <- m ;; k" := (bind m (fun x => k))
  (at level 61, m at next level, right associativity).

(** [int(char)] for a one-character string. *)
Definition int (c : char) : result Z :=
  match decimal_value c with
  | Some v => Ok v
  | None => Raise ValueError
  end.

(** Indexing [xs[i]] of a list or string, negative indices included. *)
Definition index {A : Type} (xs : list A) (i : Z) : result A :=
  let len := Z.of_nat (length xs) in
  let j := if i <? 0 then i + len else i in
  if (0 <=? j) && (j <? len) then
    match nth_error xs (Z.to_nat j) with
    | Some x => Ok x
    | None => Raise IndexError
    end
  else Raise IndexError.

(** Lookup [d[k]] in a dict literal, kept in the order it is written. *)
Fixpoint getitem (d : list (char * Z)) (k : char) : result Z :=
  match d with
  | [] => Raise KeyError
  | (k', v) :: d' => if N.eqb k' k then Ok v else getitem d' k
  end.

(** ** Regular expressions

    The fragment of [re] that the two patterns use: character sets,
    bounded repetition of a set, and the anchors [^], [$] and [\b]. *)

Inductive setitem : Type :=
| Range (lo hi : char)
| Literal (c : char)
| Digit.

Inductive node : Type :=
| In_ (items : list setitem)
| AtBeginning
| AtEnd
| AtBoundary.

Definition regex : Type := list node.

(** [x{n}] *)
Definition times (n : nat) (x : node) : regex := repeat x n.

Definition setitem_match (it : setitem) (c : char) : bool :=
  match it with
  | Range lo hi => between (code lo) (code hi) c
  | Literal c' => N.eqb c' c
  | Digit => isdecimal c
  end.

Definition in_set (items : list setitem) (c : char) : bool :=
  existsb (fun it => setitem_match it c) items.

Definition word_at (o : option char) : bool :=
  match o with
  | Some c => is_word c
  | None => false
  end.

(** The character before the current position once [a] has been read
    from a position that had [prev] before it. *)
Definition last_char (prev : option char) (a : pystr) : option char :=
  fold_left (fun _ c => Some c) a prev.

(** [\b]: the characters on the two sides differ in being word
    characters; outside the string counts as not a word character. *)
Definition at_boundary (prev : option char) (s : pystr) : bool :=
  xorb (word_at prev) (word_at (hd_error s)).

(** [$] without MULTILINE: at the end, or before a final newline. *)
Definition at_end (s : pystr) : bool :=
  match s with
  | [] => true
  | [c] => N.eqb c 10%N
  | _ => false
  end.

(** Match [p] at the current position: [prev] is the character before
    it ([None] at the start of the string), [s] the rest of the string.
    The result is the text matched. *)
Fixpoint match_here (p : regex) (prev : option char) (s : pystr)
  : option pystr :=
  match p with
  | [] => Some []
  | In_ items :: p' =>
      match s with
      | c :: s' =>
          if in_set items c
          then option_map (cons c) (match_here p' (Some c) s')
          else None
      | [] => None
      end
  | AtBeginning :: p' =>
      match prev with
      | None => match_here p' prev s
      | Some _ => None
      end
  | AtEnd :: p' => if at_end s then match_here p' prev s else None
  | AtBoundary :: p' =>
      if at_boundary prev s then match_here p' prev s else None
  end.

(** [pattern.match(s)], as a truth value. *)
Definition re_match (p : regex) (s : pystr) : bool :=
  match match_here p None s with
  | Some _ => true
  | None => false
  end.

(** [pattern.finditer(s)] from position [pos], for a pattern whose
    matches are never empty: after a match the scan resumes at its end,
    here by skipping the [skip] characters left of it. *)
Fixpoint scan_from (p : regex) (pos : nat) (prev : option char)
  (skip : nat) (s : pystr) : list (nat * pystr) :=
  match skip, s with
  | S k, c :: s' => scan_from p (S pos) (Some c) k s'
  | S _, [] => []
  | O, _ =>
      match match_here p prev s with
      | Some m =>
          (pos, m) ::
          match s with
          | c :: s' => scan_from p (S pos) (Some c) (length m - 1) s'
          | [] => []
          end
      | None =>
          match s with
          | c :: s' => scan_from p (S pos) (Some c) 0 s'
          | [] => []
          end
      end
  end.

Definition finditer (p : regex) (s : pystr) : list (nat * pystr) :=
  scan_from p 0 None 0 s.

(** [pattern.findall(s)] for a pattern without groups. *)
Definition findall (p : regex) (s : pystr) : list pystr :=
  map snd (finditer p s).

(** ** is_valid_uci *)

Module Uci.

(** [^\d{5}[A-Z0-9]\d{6}[A-HK-MRTVWXY]$] *)
Definition pattern : regex :=
  [AtBeginning]
  ++ times 5 (In_ [Digit])
  ++ [In_ [Range (ch "A") (ch "Z"); Range (ch "0") (ch "9")]]
  ++ times 6 (In_ [Digit])
  ++ [In_ [Range (ch "A") (ch "H"); Range (ch "K") (ch "M");
           Literal (ch "R"); Literal (ch "T"); Literal (ch "V");
           Literal (ch "W"); Literal (ch "X"); Literal (ch "Y")]]
  ++ [AtEnd].

Definition alpha_map : list (char * Z) :=
  [(ch "A", 1); (ch "B", 2); (ch "C", 3); (ch "D", 4); (ch "E", 5); (ch "F", 6); (ch "G", 7);
   (ch "H", 8); (ch "I", 9); (ch "J", 10); (ch "K", 11); (ch "L", 12); (ch "M", 13);
   (ch "N", 14); (ch "O", 15); (ch "P", 16); (ch "Q", 10); (ch "R", 11); (ch "S", 12);
   (ch "T", 13); (ch "U", 14); (ch "V", 15); (ch "W", 16); (ch "X", 10); (ch "Y", 11);
   (ch "Z", 12)].

Definition check_digit_map : pystr := str "ABCDEFGHKLMRTVWXY".

Definition multipliers : list Z := [16; 15; 14; 13; 12; 11; 10; 9; 8; 7; 6; 5].

(** The value of [char] at position [i] of the loop body. *)
Definition value_of (i : nat) (char : char) : result Z :=
  if (i =? 5)%nat && isalpha char then getitem alpha_map char else int char.

(** [for i, char in enumerate(core_uci)], from index [i] on, with the
    running [total_sum]. *)
Fixpoint checksum_loop (i : nat) (chars : pystr) (total_sum : Z) : result Z :=
  match chars with
  | [] => Ok total_sum
  | char :: rest =>
      value <- value_of i char ;;
      m <- index multipliers (Z.of_nat i) ;;
      checksum_loop (S i) rest (total_sum + value * m)
  end.

(** [uci] is a [str] by its type, so the [isinstance] test holds and
    the first guard is the one on the length.  The [try] block is the
    loop alone: a KeyError or a ValueError of it returns False, any
    other exception is passed on. *)
Definition is_valid_uci (uci : pystr) : result bool :=
  if negb (length uci =? 13)%nat then Ok false
  else if negb (re_match pattern uci) then Ok false
  else
    let core_uci := firstn 12 uci in
    check_digit_provided <- index uci 12 ;;
    match checksum_loop 0 core_uci 0 with
    | Raise KeyError | Raise ValueError => Ok false
    | Raise e => Raise e
    | Ok total_sum =>
        let remainder := total_sum mod 17 in
        calculated_check_digit <- index check_digit_map remainder ;;
        Ok (codes_eqb [code calculated_check_digit]
                      (upper check_digit_provided))
    end.

(** ** extract_uci *)

(** [\b[A-Z0-9]{13}\b] *)
Definition uci_pattern : regex :=
  [AtBoundary]
  ++ times 13 (In_ [Range (ch "A") (ch "Z"); Range (ch "0") (ch "9")])
  ++ [AtBoundary].

(** Truth value of a string: it is not empty. *)
Definition truthy (s : pystr) : bool :=
  match s with
  | [] => false
  | _ :: _ => true
  end.

(** [for uci in potential_UCIs], with the current [validated_uci]; the
    loop is left at the first candidate that validates. *)
Fixpoint first_valid (potential_UCIs : list pystr) (validated_uci : pystr)
  : result pystr :=
  match potential_UCIs with
  | [] => Ok validated_uci
  | uci :: rest =>
      ok <- is_valid_uci uci ;;
      if ok then Ok uci else first_valid rest validated_uci
  end.

Definition extract_uci (page_text : pystr) : result (option pystr) :=
  let potential_UCIs := findall uci_pattern page_text in
  validated_uci <- first_valid potential_UCIs [] ;;
  Ok (if truthy validated_uci then Some validated_uci else None).

End Uci.

(** ** The specification's reading of a UCI *)

Module Spec.

Definition mem (c : char) (alphabet : string) : bool :=
  existsb (N.eqb c) (str alphabet).

(** A decimal digit, of any script. *)
Definition digit (c : char) : bool := isdecimal c.

(** One of the ten digits 0 to 9. *)
Definition ascii_digit (c : char) : bool := mem c "0123456789".

Definition upper_letter (c : char) : bool :=
  mem c "ABCDEFGHIJKLMNOPQRSTUVWXYZ".

Definition lower_letter (c : char) : bool :=
  mem c "abcdefghijklmnopqrstuvwxyz".

Definition check_alphabet : string := "ABCDEFGHKLMRTVWXY".

Definition check_letter (c : char) : bool := mem c check_alphabet.

(** Five digits, one of [A-Z0-9], six digits, one check letter. *)
Definition lexical_shape (s : pystr) : bool :=
  match s with
  | [c0; c1; c2; c3; c4; c5; c6; c7; c8; c9; c10; c11; c12] =>
      forallb digit [c0; c1; c2; c3; c4]
      && (upper_letter c5 || ascii_digit c5)
      && forallb digit [c6; c7; c8; c9; c10; c11]
      && check_letter c12
  | _ => false
  end.

(** The same shape with every digit one of 0 to 9. *)
Definition ascii_shape (s : pystr) : bool :=
  match s with
  | [c0; c1; c2; c3; c4; c5; c6; c7; c8; c9; c10; c11; c12] =>
      forallb ascii_digit [c0; c1; c2; c3; c4]
      && (upper_letter c5 || ascii_digit c5)
      && forallb ascii_digit [c6; c7; c8; c9; c10; c11]
      && check_letter c12
  | _ => false
  end.

(** The alphabetic-value table. *)
Definition alpha_value (c : char) : Z :=
  if (code c <? 128)%N then
    match ascii_of_N (code c) with
    | "A" => 1 | "B" => 2 | "C" => 3 | "D" => 4 | "E" => 5 | "F" => 6
    | "G" => 7 | "H" => 8 | "I" => 9 | "J" => 10 | "K" => 11 | "L" => 12
    | "M" => 13 | "N" => 14 | "O" => 15 | "P" => 16 | "Q" => 10 | "R" => 11
    | "S" => 12 | "T" => 13 | "U" => 14 | "V" => 15 | "W" => 16 | "X" => 10
    | "Y" => 11 | "Z" => 12
    | _ => 0
    end%char
  else 0.

(** The decimal value of a digit. *)
Definition digit_value (c : char) : Z :=
  match decimal_value c with
  | Some v => v
  | None => 0
  end.

Definition weights : list Z := [16; 15; 14; 13; 12; 11; 10; 9; 8; 7; 6; 5].

(** The contribution of the character at position [i], before its
    weight. *)
Definition value (i : nat) (c : char) : Z :=
  if (i =? 5)%nat && upper_letter c then alpha_value c else digit_value c.

(** The weighted sum over positions 0..11. *)
Definition weighted_sum (s : pystr) : Z :=
  fold_right Z.add 0
    (map (fun i => value i (nth i s (ch "0")) * nth i weights 0) (seq 0 12)).

(** The check character that a sum calls for. *)
Definition expected_check (sum : Z) : option char :=
  nth_error (str check_alphabet) (Z.to_nat (sum mod 17)).

(** A character a candidate token is made of. *)
Definition token_char (c : char) : bool := upper_letter c || ascii_digit c.

(** An alphanumeric character at a place of the text, if there is one
    there. *)
Definition alnum_at (o : option char) : bool :=
  match o with
  | Some c => isalnum c
  | None => false
  end.

(** The Validator returns true. *)
Definition accepts (s : pystr) : bool :=
  match Uci.is_valid_uci s with
  | Ok true => true
  | _ => false
  end.

(** Validity as the specification words it. *)
Definition valid (s : pystr) : Prop :=
  lexical_shape s = true
  /\ expected_check (weighted_sum s) = nth_error s 12.

End Spec.

(** ** Transcription errors

    The two edits of a candidate against which a check character is
    judged: one character replaced, two neighbours exchanged. *)

Module Edit.

(** [s[:i] + c + s[i+1:]] for a position [i] of [s]. *)
Fixpoint replace_at (i : nat) (c : char) (s : pystr) : pystr :=
  match s, i with
  | [], _ => []
  | _ :: s', O => c :: s'
  | x :: s', S j => x :: replace_at j c s'
  end.

(** [s] with the characters at positions [i] and [i+1] exchanged. *)
Definition swap_at (i : nat) (s : pystr) : pystr :=
  match nth_error s i, nth_error s (S i) with
  | Some a, Some b => replace_at i b (replace_at (S i) a s)
  | _, _ => s
  end.

End Edit.

(** ** The functions on PDF files

    PyMuPDF, PIL, Tesseract and the file system are outside the program:
    a call into them is modelled by its outcome, and what the program
    does to the outside (a directory made, a file saved, a line
    printed) by the list of its events, in order. *)

Module Pdf.

Inductive error : Type :=
| TesseractNotFoundError
| LibraryError
| Builtin (e : exn).

Inductive outcome (A : Type) : Type :=
| Returned (a : A)
| Raised (e : error).

Arguments Returned {A} a.
Arguments Raised {A} e.

(** A page of an open document: what [page.get_text()] yields, and what
    the page yields when it is rendered at 300 dpi, opened as an image
    and read by [pytesseract.image_to_string]. *)
Record page : Type := {
  get_text : outcome pystr;
  image_to_string : outcome pystr
}.

Definition document : Type := list page.

Inductive event : Type :=
| PrintReadError (pdf_path : pystr) (e : error)
| PrintTesseractNotFound
| PrintOcrError (e : error)
| Makedirs (dir : pystr)
| Save (dir file_name : pystr) (page_number : nat)
| PrintExtracted (uci : pystr) (page_number : nat).

(** ["\n"] *)
Definition newline : pystr := [10%N].

(** The loop of extract_text_from_pdf from page [i] on. *)
Fixpoint get_text_loop (i : nat) (doc : document) (full_text : pystr)
  : outcome pystr :=
  match doc with
  | [] => Returned full_text
  | page :: rest =>
      match get_text page with
      | Raised e => Raised e
      | Returned text =>
          let full_text := full_text ++ text ++ newline in
          if (i =? 5)%nat then Returned full_text
          else get_text_loop (S i) rest full_text
      end
  end.

(** The text returned, and what is printed. *)
Definition extract_text_from_pdf (fitz_open : pystr -> outcome document)
  (pdf_path : pystr) : pystr * list event :=
  let body :=
    match fitz_open pdf_path with
    | Returned doc => get_text_loop 0 doc []
    | Raised e => Raised e
    end in
  match body with
  | Returned full_text => (full_text, [])
  | Raised e => ([], [PrintReadError pdf_path e])
  end.

(** The loop of extract_text_from_pdf_ocr from page [i] on. *)
Fixpoint ocr_loop (i : nat) (doc : document) (full_text : pystr)
  : outcome pystr :=
  match doc with
  | [] => Returned full_text
  | page :: rest =>
      match image_to_string page with
      | Raised e => Raised e
      | Returned page_text =>
          let full_text :=
            if Uci.truthy page_text
            then full_text ++ page_text ++ newline
            else full_text in
          if (i =? 5)%nat then Returned full_text
          else ocr_loop (S i) rest full_text
      end
  end.

Definition extract_text_from_pdf_ocr (fitz_open : pystr -> outcome document)
  (pdf_path : pystr) : pystr * list event :=
  let body :=
    match fitz_open pdf_path with
    | Returned doc => ocr_loop 0 doc []
    | Raised e => Raised e
    end in
  match body with
  | Returned full_text => (full_text, [])
  | Raised TesseractNotFoundError => ([], [PrintTesseractNotFound])
  | Raised e => ([], [PrintOcrError e])
  end.

(** [f'{extracted_uci}_{exam_board}.pdf'] *)
Definition file_name (extracted_uci exam_board : pystr) : pystr :=
  extracted_uci ++ str "_" ++ exam_board ++ str ".pdf".

(** The loop of split_pdf_by_uci from page [i] on: the events up to the
    end of the document or to the exception that leaves the loop.
    [save dir name i] is what making the one-page document of page [i]
    and saving it at [os.path.join(dir, name)] yields; the event
    [Save dir name i] stands for the file saved. *)
Fixpoint split_loop (save : pystr -> pystr -> nat -> outcome unit)
  (output_dir exam_board : pystr) (i : nat)
  (doc : document) : list event * outcome unit :=
  match doc with
  | [] => ([], Returned tt)
  | page :: rest =>
      match image_to_string page with
      | Raised e => ([], Raised e)
      | Returned page_text =>
          match Uci.extract_uci page_text with
          | Raise e => ([], Raised (Builtin e))
          | Ok extracted_uci =>
              let saved :=
                match extracted_uci with
                | Some uci =>
                    if Uci.truthy uci
                    then
                      match save output_dir (file_name uci exam_board) i with
                      | Returned _ =>
                          Returned
                            [Save output_dir (file_name uci exam_board) i;
                             PrintExtracted uci i]
                      | Raised e => Raised e
                      end
                    else Returned []
                | None => Returned []
                end in
              match saved with
              | Raised e => ([], Raised e)
              | Returned saved =>
                  let (events, r) :=
                    split_loop save output_dir exam_board (S i) rest in
                  (saved ++ events, r)
              end
          end
      end
  end.

(** [path_exists] is [os.path.exists], and [makedirs dir] what
    [os.makedirs(dir)] yields. *)
Definition split_pdf_by_uci (path_exists : pystr -> bool)
  (makedirs : pystr -> outcome unit)
  (save : pystr -> pystr -> nat -> outcome unit)
  (fitz_open : pystr -> outcome document)
  (pdf_path output_dir exam_board : pystr) : list event * outcome unit :=
  let made :=
    if negb (path_exists output_dir)
    then
      match makedirs output_dir with
      | Returned _ => Returned [Makedirs output_dir]
      | Raised e => Raised e
      end
    else Returned [] in
  match made with
  | Raised e => ([], Raised e)
  | Returned made =>
      match fitz_open pdf_path with
      | Raised e => (made, Raised e)
      | Returned doc =>
          let (events, r) := split_loop save output_dir exam_board 0 doc in
          (made ++ events, r)
      end
  end.

Definition main (path_exists : pystr -> bool)
  (makedirs : pystr -> outcome unit)
  (save : pystr -> pystr -> nat -> outcome unit)
  (fitz_open : pystr -> outcome document) : list event * outcome unit :=
  let input_PDF := str "OCR Statement_Of_Marks_20240814.pdf" in
  let exam_board := str "OCR" in
  let output_dir := str "output_pdfs" in
  split_pdf_by_uci path_exists makedirs save fitz_open
    input_PDF output_dir exam_board.

(** Page [k] of [doc] is read by OCR and extract_uci finds [uci] in its
    text. *)
Definition page_uci (doc : document) (k : nat) (uci : pystr) : Prop :=
  exists page page_text,
    nth_error doc k = Some page
    /\ image_to_string page = Returned page_text
    /\ Uci.extract_uci page_text = Ok (Some uci).

End Pdf.

(** A document of four scanned pages, to run the functions on: two
    pages of one candidate, a page without UCI, a page of another
    candidate. *)

Module Sample.

Definition scanned (page_text : pystr) : Pdf.page :=
  {| Pdf.get_text := Pdf.Returned [];
     Pdf.image_to_string := Pdf.Returned page_text |}.

Definition unreadable : Pdf.page :=
  {| Pdf.get_text := Pdf.Returned [];
     Pdf.image_to_string := Pdf.Raised Pdf.LibraryError |}.

Definition marks : Pdf.document :=
  [scanned (str "Candidate 12345A678901H  Unit 1");
   scanned (str "Candidate 12345A678901H  Unit 2");
   scanned (str "Totals 1234567890123");
   scanned (str "Candidate 12345J678901E  Unit 1")].

(** A document whose second page OCR fails on. *)
Definition torn : Pdf.document :=
  [scanned (str "12345A678901H"); unreadable; scanned (str "12345J678901E")].

Definition fitz_open (pdf_path : pystr) : Pdf.outcome Pdf.document :=
  Pdf.Returned marks.

Definition no_directory (path : pystr) : bool := false.

(** A file system on which directories are made and files saved. *)
Definition makedirs (dir : pystr) : Pdf.outcome unit := Pdf.Returned tt.

Definition save (dir file_name : pystr) (page_number : nat)
  : Pdf.outcome unit := Pdf.Returned tt.

(** Thirteen characters with Arabic-Indic digits, U+0660 to U+0669, in
    the place of 12345A678901H. *)
Definition arabic_indic : pystr :=
  [1633; 1634; 1635; 1636; 1637; ch "A"; 1638; 1639; 1640; 1641; 1632;
   1633; ch "H"]%N.

End Sample.

(** ** Characters, one at a time *)

Lemma between_le (lo hi : N) (c : char) :
  between lo hi c = true -> (lo <= c <= hi)%N.
Proof.
  unfold between, code. intro H. apply andb_prop in H.
  destruct H as [H1 H2]. apply N.leb_le in H1, H2. now split.
Qed.

Lemma str_bound (c : char) (s : string) : In c (str s) -> (c < 256)%N.
Proof.
  unfold str. intro H. apply in_map_iff in H. destruct H as (a & <- & _).
  apply N_ascii_bounded.
Qed.

Lemma mem_in (c : char) (alphabet : string) :
  Spec.mem c alphabet = true -> In c (str alphabet).
Proof.
  unfold Spec.mem. intro H. apply existsb_exists in H.
  destruct H as (x & Hx & E). apply N.eqb_eq in E. now subst.
Qed.

Lemma byte_in (c : char) : (c < 256)%N -> In c bytes.
Proof.
  intro H. unfold bytes. apply in_map_iff. exists (N.to_nat c). split.
  - apply N2Nat.id.
  - apply in_seq. lia.
Qed.

Lemma ext_on_bytes (f g : char -> bool) :
  (forall c, f c = true -> (c < 256)%N) ->
  (forall c, g c = true -> (c < 256)%N) ->
  forallb (fun c => Bool.eqb (f c) (g c)) bytes = true ->
  forall c, f c = g c.
Proof.
  intros Hf Hg H c. rewrite forallb_forall in H.
  destruct (N.ltb_spec c 256) as [Hc|Hc].
  - apply eqb_prop, H, byte_in, Hc.
  - destruct (f c) eqn:Ef; [apply Hf in Ef; lia|].
    destruct (g c) eqn:Eg; [apply Hg in Eg; lia|]. reflexivity.
Qed.

Lemma decimal_in (c : char) : isdecimal c = true -> In c all_decimals.
Proof.
  unfold isdecimal, decimal_value. intro H.
  destruct (find (fun z => between z (z + 9) c) Unicode.decimal_zeros)
    as [z|] eqn:E; [|discriminate H].
  apply find_some in E. destruct E as [Hz Hb]. apply between_le in Hb.
  unfold all_decimals. apply in_flat_map. exists z. split; [exact Hz|].
  apply in_map_iff. exists (N.to_nat (c - z)). split; [lia|].
  apply in_seq. lia.
Qed.

Lemma decimal_cases (f : char -> bool) :
  forallb f all_decimals = true ->
  forall c, isdecimal c = true -> f c = true.
Proof.
  intros H c Hc. rewrite forallb_forall in H. apply H, decimal_in, Hc.
Qed.

(** One goal for each character of the alphabet of [H]. *)
Ltac each_of H :=
  apply mem_in in H; vm_compute in H;
  repeat (destruct H as [H|H]; [subst|]); [..|contradiction].

(** A character set of ranges and literals below 256 holds characters
    below 256 only. *)
Ltac set_below H :=
  unfold in_set in H; apply existsb_exists in H;
  let it := fresh "it" in
  let Hin := fresh "Hin" in
  let Hm := fresh "Hm" in
  destruct H as (it & Hin & Hm); cbn [In] in Hin;
  repeat (destruct Hin as [<-|Hin]); try contradiction;
  cbn [setitem_match] in Hm;
  (apply between_le in Hm; destruct Hm as [_ Hm];
   eapply N.le_lt_trans; [exact Hm | vm_compute; reflexivity])
  || (apply N.eqb_eq in Hm; subst; reflexivity).

Lemma code_inj (a b : char) : code a = code b -> a = b.
Proof. unfold code. auto. Qed.

Lemma in_set_digit (c : char) : in_set [Digit] c = Spec.digit c.
Proof. unfold in_set. cbn [existsb setitem_match]. apply orb_false_r. Qed.

Lemma in_set_marker (c : char) :
  in_set [Range (ch "A") (ch "Z"); Range (ch "0") (ch "9")] c
  = Spec.upper_letter c || Spec.ascii_digit c.
Proof.
  revert c. apply ext_on_bytes.
  - intros c H. set_below H.
  - intros c H. apply orb_prop in H.
    destruct H as [H|H]; apply mem_in, str_bound in H; exact H.
  - vm_compute. reflexivity.
Qed.

Lemma in_set_check (c : char) :
  in_set [Range (ch "A") (ch "H"); Range (ch "K") (ch "M");
          Literal (ch "R"); Literal (ch "T");
          Literal (ch "V"); Literal (ch "W"); Literal (ch "X");
          Literal (ch "Y")] c
  = Spec.check_letter c.
Proof.
  revert c. apply ext_on_bytes.
  - intros c H. set_below H.
  - intros c H. apply mem_in, str_bound in H. exact H.
  - vm_compute. reflexivity.
Qed.

Lemma digit_facts (c : char) :
  Spec.digit c = true ->
  isalpha c = false /\ Spec.upper_letter c = false
  /\ int c = Ok (Spec.digit_value c)
  /\ 0 <= Spec.digit_value c <= 9.
Proof.
  unfold Spec.digit. intro H.
  pose proof (decimal_cases
                (fun c => negb (isalpha c) && negb (Spec.upper_letter c)
                          && (0 <=? Spec.digit_value c)
                          && (Spec.digit_value c <=? 9))
                ltac:(vm_compute; reflexivity) c H) as Hf.
  cbv beta in Hf.
  repeat match goal with
         | H : _ && _ = true |- _ => apply andb_prop in H; destruct H
         end.
  repeat split.
  - now apply negb_true_iff.
  - now apply negb_true_iff.
  - unfold int, Spec.digit_value. unfold isdecimal in H.
    now destruct (decimal_value c).
  - now apply Z.leb_le.
  - now apply Z.leb_le.
Qed.

Lemma ascii_digit_facts (c : char) :
  Spec.ascii_digit c = true ->
  Spec.digit c = true /\ Spec.token_char c = true /\ (c < 128)%N.
Proof. intro H. each_of H; vm_compute; auto. Qed.

Lemma ascii_decimal (c : char) :
  Spec.digit c = true -> (c < 128)%N -> Spec.ascii_digit c = true.
Proof.
  intros Hd Hc.
  pose proof (decimal_cases
                (fun c => implb (c <? 128)%N (Spec.ascii_digit c))
                ltac:(vm_compute; reflexivity) c Hd) as H.
  cbv beta in H. apply N.ltb_lt in Hc. now rewrite Hc in H.
Qed.

Lemma letter_facts (c : char) :
  Spec.upper_letter c = true ->
  isalpha c = true /\ Spec.digit c = false
  /\ getitem Uci.alpha_map c = Ok (Spec.alpha_value c)
  /\ 1 <= Spec.alpha_value c <= 16.
Proof. intro H. each_of H; vm_compute; repeat split; discriminate. Qed.

Lemma check_letter_upper (c : char) :
  Spec.check_letter c = true -> upper c = [code c].
Proof. intro H. each_of H; vm_compute; reflexivity. Qed.

Lemma shape_test (s : pystr) :
  length s = 13%nat -> re_match Uci.pattern s = Spec.lexical_shape s.
Proof.
  intro Hlen.
  do 14 (destruct s as [|? s]; try discriminate Hlen).
  unfold re_match, Uci.pattern, times, Spec.lexical_shape.
  cbn [match_here repeat app forallb at_end].
  rewrite !in_set_digit, in_set_marker, in_set_check.
  repeat match goal with
         | |- context [Spec.digit ?c] =>
             destruct (Spec.digit c); cbn [option_map andb orb];
             try reflexivity
         end;
  repeat match goal with
         | |- context [Spec.upper_letter ?c] =>
             destruct (Spec.upper_letter c); cbn [option_map andb orb];
             try reflexivity
         end;
  repeat match goal with
         | |- context [Spec.ascii_digit ?c] =>
             destruct (Spec.ascii_digit c); cbn [option_map andb orb];
             try reflexivity
         end;
  repeat match goal with
         | |- context [Spec.check_letter ?c] =>
             destruct (Spec.check_letter c); cbn [option_map andb orb];
             try reflexivity
         end.
Qed.

(** ** The checksum loop on a string of the lexical shape *)

Lemma value_of_digit (i : nat) (c : char) :
  Spec.digit c = true -> Uci.value_of i c = Ok (Spec.value i c).
Proof.
  intro H. destruct (digit_facts c H) as (Ha & Hu & Hi & _).
  unfold Uci.value_of, Spec.value. rewrite Ha, Hu, !andb_false_r. exact Hi.
Qed.

Lemma value_of_marker (c : char) :
  Spec.upper_letter c || Spec.ascii_digit c = true ->
  Uci.value_of 5 c = Ok (Spec.value 5 c).
Proof.
  intro H. destruct (Spec.upper_letter c) eqn:Hu.
  - destruct (letter_facts c Hu) as (Ha & _ & Hg & _).
    unfold Uci.value_of, Spec.value. rewrite Ha, Hu. exact Hg.
  - apply value_of_digit. now apply ascii_digit_facts.
Qed.

Lemma shape_inv (s : pystr) :
  Spec.lexical_shape s = true ->
  exists c0 c1 c2 c3 c4 c5 c6 c7 c8 c9 c10 c11 c12,
    s = [c0; c1; c2; c3; c4; c5; c6; c7; c8; c9; c10; c11; c12]
    /\ Forall (fun c => Spec.digit c = true)
         [c0; c1; c2; c3; c4; c6; c7; c8; c9; c10; c11]
    /\ Spec.upper_letter c5 || Spec.ascii_digit c5 = true
    /\ Spec.check_letter c12 = true.
Proof.
  intro H.
  do 14 (destruct s as [|? s]; try discriminate H).
  unfold Spec.lexical_shape in H. cbn [forallb] in H.
  repeat match goal with
         | H : _ && _ = true |- _ => apply andb_prop in H; destruct H
         end.
  do 13 eexists. split; [reflexivity|].
  repeat split; auto.
  repeat constructor; assumption.
Qed.

Lemma shape_length (s : pystr) :
  Spec.lexical_shape s = true -> length s = 13%nat.
Proof.
  intro H. destruct (shape_inv s H) as (?&?&?&?&?&?&?&?&?&?&?&?&?&->&_).
  reflexivity.
Qed.

Lemma multiplier_at (i : nat) :
  (i < 12)%nat ->
  index Uci.multipliers (Z.of_nat i) = Ok (nth i Spec.weights 0).
Proof.
  intro H.
  do 12 (destruct i as [|i]; [reflexivity|]). lia.
Qed.

Lemma checksum_on_shape (s : pystr) :
  Spec.lexical_shape s = true ->
  Uci.checksum_loop 0 (firstn 12 s) 0 = Ok (Spec.weighted_sum s).
Proof.
  intro H.
  destruct (shape_inv s H)
    as (c0&c1&c2&c3&c4&c5&c6&c7&c8&c9&c10&c11&c12&->&Hd&Hm&_).
  repeat match goal with
         | H : Forall _ (_ :: _) |- _ => inversion H; subst; clear H
         end.
  cbn [firstn Uci.checksum_loop].
  rewrite value_of_marker by assumption.
  rewrite !value_of_digit by assumption.
  unfold Spec.weighted_sum.
  rewrite !multiplier_at by lia.
  cbn [bind seq map fold_right nth Spec.weights].
  f_equal. ring.
Qed.

(** ** What is_valid_uci returns *)

Lemma index_in_range {A : Type} (xs : list A) (i : Z) :
  0 <= i < Z.of_nat (length xs) ->
  exists x, index xs i = Ok x /\ nth_error xs (Z.to_nat i) = Some x.
Proof.
  intros [Hlo Hhi]. unfold index.
  replace (i <? 0) with false by (symmetry; apply Z.ltb_ge; exact Hlo).
  replace (0 <=? i) with true by (symmetry; apply Z.leb_le; exact Hlo).
  replace (i <? Z.of_nat (length xs)) with true
    by (symmetry; apply Z.ltb_lt; exact Hhi).
  cbn [andb].
  destruct (nth_error xs (Z.to_nat i)) as [x|] eqn:E.
  - exists x. split; reflexivity.
  - apply nth_error_None in E. lia.
Qed.

Lemma codes_eqb_single (a b : char) :
  codes_eqb [code a] [code b] = N.eqb a b.
Proof.
  cbn [codes_eqb]. rewrite andb_true_r.
  destruct (N.eqb a b) eqn:E.
  - apply N.eqb_eq in E. subst. apply N.eqb_refl.
  - apply N.eqb_neq. intro H. apply code_inj in H.
    apply N.eqb_neq in E. contradiction.
Qed.

Lemma is_valid_uci_off_shape (s : pystr) :
  Spec.lexical_shape s = false -> Uci.is_valid_uci s = Ok false.
Proof.
  intro H. unfold Uci.is_valid_uci.
  destruct (length s =? 13)%nat eqn:Hlen; cbn [negb]; [|reflexivity].
  apply Nat.eqb_eq in Hlen.
  rewrite (shape_test s Hlen), H. reflexivity.
Qed.

Lemma is_valid_uci_on_shape (s : pystr) :
  Spec.lexical_shape s = true ->
  exists calc c12,
    Spec.expected_check (Spec.weighted_sum s) = Some calc
    /\ nth_error s 12 = Some c12
    /\ Spec.check_letter c12 = true
    /\ Uci.is_valid_uci s = Ok (N.eqb calc c12).
Proof.
  intro H. pose proof (shape_length s H) as Hlen.
  pose proof (checksum_on_shape s H) as Hsum.
  pose proof (shape_test s Hlen) as Hre. rewrite H in Hre.
  unfold Uci.is_valid_uci. rewrite Hlen, Hre, Hsum. cbn [Nat.eqb negb].
  destruct (index_in_range Uci.check_digit_map (Spec.weighted_sum s mod 17))
    as (calc & Hcalc & Hnth).
  { change (Z.of_nat (length Uci.check_digit_map)) with 17.
    apply Z.mod_pos_bound. lia. }
  destruct (shape_inv s H)
    as (c0&c1&c2&c3&c4&c5&c6&c7&c8&c9&c10&c11&c12&->&_&_&Hc).
  exists calc, c12.
  change (index [c0; c1; c2; c3; c4; c5; c6; c7; c8; c9; c10; c11; c12] 12)
    with (Ok c12).
  rewrite Hcalc. cbn [bind].
  rewrite (check_letter_upper c12 Hc), codes_eqb_single.
  repeat split; auto.
Qed.

Lemma lower_letter_facts (c : char) :
  Spec.lower_letter c = true ->
  Spec.digit c = false /\ Spec.upper_letter c = false
  /\ Spec.check_letter c = false /\ Spec.ascii_digit c = false.
Proof. intro H. each_of H; vm_compute; auto. Qed.

Lemma shape_positions (s : pystr) (i : nat) (c : char) :
  Spec.lexical_shape s = true ->
  (i < 12)%nat -> nth_error s i = Some c ->
  if (i =? 5)%nat then Spec.upper_letter c || Spec.ascii_digit c = true
  else Spec.digit c = true.
Proof.
  intros H Hi Hn.
  destruct (shape_inv s H)
    as (c0&c1&c2&c3&c4&c5&c6&c7&c8&c9&c10&c11&c12&->&Hd&Hm&_).
  repeat match goal with
         | H : Forall _ (_ :: _) |- _ => inversion H; subst; clear H
         end.
  do 12 (destruct i as [|i];
         [cbn in Hn; injection Hn as <-; cbn [Nat.eqb]; assumption|]).
  lia.
Qed.

(** ** The validator *)

Lemma digit_ascii_digit (c : char) :
  (c < 128)%N -> Spec.digit c = Spec.ascii_digit c.
Proof.
  intro Hc. destruct (Spec.ascii_digit c) eqn:E.
  - now apply ascii_digit_facts.
  - destruct (Spec.digit c) eqn:Ed; [|reflexivity].
    rewrite (ascii_decimal c Ed Hc) in E. discriminate E.
Qed.

Lemma ascii_shape_shape (s : pystr) :
  Forall (fun c => (c < 128)%N) s ->
  Spec.lexical_shape s = Spec.ascii_shape s.
Proof.
  intro H.
  do 14 (destruct s as [|? s]; try reflexivity).
  repeat match goal with
         | H : Forall _ (_ :: _) |- _ => inversion H; subst; clear H
         end.
  unfold Spec.lexical_shape, Spec.ascii_shape. cbn [forallb].
  now rewrite !digit_ascii_digit by assumption.
Qed.

(** C1 fails as stated: thirteen characters with Arabic-Indic digits in
    the places of the digits pass the regular expression, are read by
    int and are accepted, and none of these digits is one of 0 to 9. *)
Lemma arabic_indic_digits_accepted :
  length Sample.arabic_indic = 13%nat
  /\ re_match Uci.pattern Sample.arabic_indic = true
  /\ int 1633%N = Ok 1
  /\ Uci.is_valid_uci Sample.arabic_indic = Ok true
  /\ Spec.ascii_digit 1633%N = false
  /\ Spec.ascii_shape Sample.arabic_indic = false.
Proof. repeat split; vm_compute; reflexivity. Qed.

(** C1, as the code has it: a 13-character string is accepted exactly
    when it has the lexical shape, with decimal digits of any script in
    the places of the digits, and the weighted sum of positions 0..11,
    with the value of each digit as int reads it, modulo 17, indexes
    its last character in "ABCDEFGHKLMRTVWXY"; on a string of
    characters below U+0080 the digits of the shape are 0 to 9. *)
Theorem is_valid_uci_iff_valid (s : pystr) :
  length s = 13%nat ->
  (Uci.is_valid_uci s = Ok true <-> Spec.valid s)
  /\ (Forall (fun c => (c < 128)%N) s ->
      (Uci.is_valid_uci s = Ok true
       <-> Spec.ascii_shape s = true
           /\ Spec.expected_check (Spec.weighted_sum s) = nth_error s 12)).
Proof.
  intros _.
  assert (H : Uci.is_valid_uci s = Ok true <-> Spec.valid s).
  { unfold Spec.valid.
    destruct (Spec.lexical_shape s) eqn:Hshape.
    - destruct (is_valid_uci_on_shape s Hshape)
        as (calc & c12 & Hexp & Hlast & _ & Hres).
      rewrite Hres, Hexp, Hlast. split.
      + intro H. injection H as H. apply N.eqb_eq in H. now subst.
      + intros [_ H]. injection H as ->. now rewrite N.eqb_refl.
    - rewrite (is_valid_uci_off_shape s Hshape). split.
      + discriminate.
      + intros [H _]. discriminate H. }
  split; [exact H|].
  intro Hascii. rewrite H. unfold Spec.valid.
  now rewrite (ascii_shape_shape s Hascii).
Qed.

Lemma is_valid_uci_iff_valid_witness :
  length (str "12345A678901H") = 13%nat
  /\ (Uci.is_valid_uci (str "12345A678901H") = Ok true
      <-> Spec.valid (str "12345A678901H"))
  /\ (Uci.is_valid_uci Sample.arabic_indic = Ok true
      <-> Spec.valid Sample.arabic_indic).
Proof.
  split; [reflexivity|]. split.
  - apply (proj1 (is_valid_uci_iff_valid (str "12345A678901H") eq_refl)).
  - apply (proj1 (is_valid_uci_iff_valid Sample.arabic_indic eq_refl)).
Defined.

(** C6: a string whose length is not 13 is rejected. *)
Theorem is_valid_uci_wrong_length (s : pystr) :
  length s <> 13%nat -> Uci.is_valid_uci s = Ok false.
Proof.
  intro H. unfold Uci.is_valid_uci.
  apply Nat.eqb_neq in H. rewrite H. reflexivity.
Qed.

Lemma is_valid_uci_wrong_length_witness :
  length (str "12345A67890M") <> 13%nat
  /\ Uci.is_valid_uci (str "12345A67890M") = Ok false.
Proof.
  split; [discriminate | apply is_valid_uci_wrong_length; discriminate].
Defined.

(** C8: twelve zeros followed by 'A' are accepted (sum 0, remainder 0,
    expected character 'A', the first of the check alphabet); with 'B'
    in the last place they are rejected. *)
Theorem is_valid_uci_all_zero :
  Uci.checksum_loop 0 (firstn 12 (str "000000000000A")) 0 = Ok 0
  /\ 0 mod 17 = 0
  /\ index Uci.check_digit_map 0 = Ok (ch "A")
  /\ Uci.is_valid_uci (str "000000000000A") = Ok true
  /\ Uci.is_valid_uci (str "000000000000B") = Ok false.
Proof. repeat split. Qed.

(** C9: is_valid_uci raises on no string, and answers false on every
    string that is not of the lexical shape: the empty string, one of
    another length, one with a character that is no digit at a digit
    position. *)
Theorem is_valid_uci_total (s : pystr) :
  (exists b, Uci.is_valid_uci s = Ok b)
  /\ (Spec.lexical_shape s = false -> Uci.is_valid_uci s = Ok false).
Proof.
  split; [|apply is_valid_uci_off_shape].
  destruct (Spec.lexical_shape s) eqn:Hshape.
  - destruct (is_valid_uci_on_shape s Hshape) as (calc & c12 & _ & _ & _ & H).
    eauto.
  - exists false. now apply is_valid_uci_off_shape.
Qed.

Lemma is_valid_uci_total_witness :
  Uci.is_valid_uci [] = Ok false
  /\ Uci.is_valid_uci (str "1234x-678901M") = Ok false.
Proof.
  split.
  - apply (proj2 (is_valid_uci_total [])). reflexivity.
  - apply (proj2 (is_valid_uci_total (str "1234x-678901M"))). reflexivity.
Defined.

(** C10: once a 13-character string has passed the regular expression,
    every lookup of the checksum loop succeeds: a letter at position 5
    is a key of alpha_map, every other character is read by int, so the
    loop ends with a sum and the except branch is not taken. *)
Theorem checksum_loop_no_error (s : pystr) :
  length s = 13%nat ->
  re_match Uci.pattern s = true ->
  (forall i c, (i < 12)%nat -> nth_error s i = Some c ->
     if (i =? 5)%nat && isalpha c
     then exists v, getitem Uci.alpha_map c = Ok v
     else exists v, int c = Ok v)
  /\ (exists total_sum,
        Uci.checksum_loop 0 (firstn 12 s) 0 = Ok total_sum).
Proof.
  intros Hlen Hre. rewrite (shape_test s Hlen) in Hre. split.
  - intros i c Hi Hn.
    pose proof (shape_positions s i c Hre Hi Hn) as Hc.
    destruct (i =? 5)%nat; cbn [andb].
    + destruct (Spec.upper_letter c) eqn:Hu.
      * destruct (letter_facts c Hu) as (-> & _ & Hg & _). eauto.
      * destruct (digit_facts c (proj1 (ascii_digit_facts c Hc)))
          as (-> & _ & Hint & _). eauto.
    + destruct (digit_facts c Hc) as (_ & _ & Hint & _). eauto.
  - exists (Spec.weighted_sum s). now apply checksum_on_shape.
Qed.

Lemma checksum_loop_no_error_witness :
  exists total_sum,
    Uci.checksum_loop 0 (firstn 12 (str "12345A678901H")) 0 = Ok total_sum.
Proof.
  apply (checksum_loop_no_error (str "12345A678901H")); reflexivity.
Defined.

(** C5: in the checksum loop of a string that passed the regular
    expression, a letter at position 5 is valued by the table A=1 ...
    P=16, Q=10 ... W=16, X=10, Y=11, Z=12, every other character by its
    decimal digit, and each value is multiplied by the weight of its
    position in 16, 15, ..., 5. *)
Theorem checksum_loop_values (s : pystr) :
  length s = 13%nat ->
  re_match Uci.pattern s = true ->
  (forall c, Spec.upper_letter c = true ->
     getitem Uci.alpha_map c = Ok (Spec.alpha_value c))
  /\ (forall i c, (i < 12)%nat -> nth_error s i = Some c ->
        Uci.value_of i c = Ok (Spec.value i c)
        /\ index Uci.multipliers (Z.of_nat i) = Ok (nth i Spec.weights 0))
  /\ Uci.checksum_loop 0 (firstn 12 s) 0 = Ok (Spec.weighted_sum s).
Proof.
  intros Hlen Hre. rewrite (shape_test s Hlen) in Hre.
  split; [|split].
  - intros c Hu. now destruct (letter_facts c Hu) as (_ & _ & Hg & _).
  - intros i c Hi Hn. split; [|now apply multiplier_at].
    pose proof (shape_positions s i c Hre Hi Hn) as Hc.
    destruct (i =? 5)%nat eqn:E.
    + apply Nat.eqb_eq in E. subst i. now apply value_of_marker.
    + now apply value_of_digit.
  - now apply checksum_on_shape.
Qed.

Lemma checksum_loop_values_witness :
  length (str "12345Q678901E") = 13%nat
  /\ re_match Uci.pattern (str "12345Q678901E") = true
  /\ Uci.checksum_loop 0 (firstn 12 (str "12345Q678901E")) 0 = Ok 565.
Proof.
  split; [reflexivity | split; [reflexivity|]].
  exact (proj2 (proj2 (checksum_loop_values (str "12345Q678901E")
                         eq_refl eq_refl))).
Defined.

(** C4, as the code has it: a lowercase letter at any position, the
    last one included, makes is_valid_uci answer false. *)
Theorem is_valid_uci_case_sensitive (s : pystr) (c : char) :
  In c s -> Spec.lower_letter c = true -> Uci.is_valid_uci s = Ok false.
Proof.
  intros Hin Hlow. apply is_valid_uci_off_shape.
  destruct (Spec.lexical_shape s) eqn:Hshape; [exfalso|reflexivity].
  destruct (lower_letter_facts c Hlow) as (Hd & Hu & Hk & Had).
  destruct (shape_inv s Hshape)
    as (c0&c1&c2&c3&c4&c5&c6&c7&c8&c9&c10&c11&c12&->&Hds&Hm&Hc).
  assert (Hc5 : c <> c5) by (intros ->; rewrite Hu, Had in Hm; discriminate).
  assert (Hc12 : c <> c12) by (intros ->; congruence).
  rewrite Forall_forall in Hds.
  assert (Hrest : ~ In c [c0; c1; c2; c3; c4; c6; c7; c8; c9; c10; c11])
    by (intro H; apply Hds in H; congruence).
  cbn [In] in Hin, Hrest. intuition congruence.
Qed.

Lemma is_valid_uci_case_sensitive_witness :
  Uci.is_valid_uci (str "12345A678901h") = Ok false.
Proof.
  apply (is_valid_uci_case_sensitive _ (ch "h")).
  - cbn. tauto.
  - reflexivity.
Defined.

(** C4 fails as stated: 'A' is the check letter of twelve zeros, and
    the same string with 'a' in its place is rejected. *)
Lemma lowercase_check_letter_rejected :
  Spec.lexical_shape (str "000000000000A") = true
  /\ Spec.expected_check (Spec.weighted_sum (str "000000000000a"))
     = Some (ch "A")
  /\ upper (ch "a") = [code (ch "A")]
  /\ Uci.is_valid_uci (str "000000000000A") = Ok true
  /\ Uci.is_valid_uci (str "000000000000a") = Ok false.
Proof. repeat split. Qed.

(** ** The resolver *)

Lemma accepts_iff (t : pystr) :
  Uci.is_valid_uci t = Ok (Spec.accepts t).
Proof.
  unfold Spec.accepts.
  destruct (proj1 (is_valid_uci_total t)) as [b ->]. now destruct b.
Qed.

Lemma accepts_truthy (t : pystr) :
  Spec.accepts t = true -> Uci.truthy t = true.
Proof.
  intro H. destruct t; [discriminate H | reflexivity].
Qed.

Lemma first_valid_find (l : list pystr) (v : pystr) :
  Uci.first_valid l v
  = Ok match find Spec.accepts l with Some u => u | None => v end.
Proof.
  induction l as [|t l IH]; cbn [Uci.first_valid find]; [reflexivity|].
  rewrite accepts_iff. cbn [bind].
  destruct (Spec.accepts t); [reflexivity | exact IH].
Qed.

Lemma find_first {A : Type} (f : A -> bool) (l : list A) (x : A) :
  find f l = Some x ->
  exists l1 l2,
    l = l1 ++ x :: l2 /\ f x = true /\ Forall (fun y => f y = false) l1.
Proof.
  induction l as [|y l IH]; cbn [find]; [discriminate|].
  destruct (f y) eqn:E.
  - intro H. injection H as ->. exists [], l. repeat split; auto.
  - intro H. destruct (IH H) as (l1 & l2 & -> & Hx & Hl1).
    exists (y :: l1), l2. repeat split; auto.
Qed.

Lemma extract_uci_find (text : pystr) :
  Uci.extract_uci text
  = Ok (find Spec.accepts (findall Uci.uci_pattern text)).
Proof.
  unfold Uci.extract_uci. rewrite first_valid_find. cbn [bind].
  destruct (find Spec.accepts (findall Uci.uci_pattern text)) as [u|] eqn:E.
  - apply find_some in E. now rewrite (accepts_truthy u (proj2 E)).
  - reflexivity.
Qed.

(** C3: extract_uci returns the first candidate of the scan that the
    validator accepts, and None when there is none; of two candidates
    of which only the second validates it returns the second, and None
    of a text without candidates. *)
Theorem extract_uci_first_accepted (text : pystr) :
  Uci.extract_uci text
  = Ok (find Spec.accepts (findall Uci.uci_pattern text))
  /\ (forall u, Uci.extract_uci text = Ok (Some u) ->
        exists l1 l2,
          findall Uci.uci_pattern text = l1 ++ u :: l2
          /\ Uci.is_valid_uci u = Ok true
          /\ Forall (fun t => Uci.is_valid_uci t = Ok false) l1)
  /\ (Uci.extract_uci text = Ok None <->
        Forall (fun t => Uci.is_valid_uci t = Ok false)
               (findall Uci.uci_pattern text))
  /\ (findall Uci.uci_pattern text = [] -> Uci.extract_uci text = Ok None)
  /\ findall Uci.uci_pattern (str "000000000000B 000000000000A")
     = [str "000000000000B"; str "000000000000A"]
  /\ Uci.extract_uci (str "000000000000B 000000000000A")
     = Ok (Some (str "000000000000A"))
  /\ Uci.extract_uci (str "no candidate on this page") = Ok None.
Proof.
  assert (Hacc : forall t b, Spec.accepts t = b <-> Uci.is_valid_uci t = Ok b).
  { intros t b. rewrite accepts_iff. split; [now intros -> | congruence]. }
  split; [apply extract_uci_find|].
  split; [|split; [|split; [|repeat split; vm_compute; reflexivity]]].
  - intros u H. rewrite extract_uci_find in H. injection H as H.
    destruct (find_first _ _ _ H) as (l1 & l2 & Hl & Hu & Hl1).
    exists l1, l2. repeat split; auto.
    + now apply Hacc.
    + eapply Forall_impl; [|exact Hl1]. intros t Ht. now apply Hacc.
  - rewrite extract_uci_find. split.
    + intro H. injection H as H. apply Forall_forall. intros t Ht.
      apply Hacc. exact (find_none _ _ H t Ht).
    + intro H. f_equal.
      destruct (find Spec.accepts (findall Uci.uci_pattern text))
        as [u|] eqn:E; [|reflexivity].
      apply find_some in E. destruct E as [Hin Hu].
      rewrite Forall_forall in H. apply H, Hacc in Hin. congruence.
  - intro H. rewrite extract_uci_find, H. reflexivity.
Qed.

Lemma extract_uci_first_accepted_witness :
  Uci.extract_uci (str "page 12 / 000000000000B") = Ok None
  /\ Uci.extract_uci [] = Ok None.
Proof.
  split.
  - apply (proj2 (proj1 (proj2 (proj2
             (extract_uci_first_accepted (str "page 12 / 000000000000B")))))).
    assert (E : findall Uci.uci_pattern (str "page 12 / 000000000000B")
                = [str "000000000000B"]) by (vm_compute; reflexivity).
    rewrite E. apply Forall_cons; [vm_compute; reflexivity | apply Forall_nil].
  - apply (proj1 (proj2 (proj2 (proj2 (extract_uci_first_accepted [])))));
      vm_compute; reflexivity.
Defined.

(** ** Matching the candidate pattern *)

Lemma token_char_word (c : char) :
  Spec.token_char c = true -> is_word c = true.
Proof.
  intro H. apply orb_prop in H.
  destruct H as [H|H]; each_of H; vm_compute; reflexivity.
Qed.

Lemma word_alnum (o : option char) :
  word_at o = false -> Spec.alnum_at o = false.
Proof.
  destruct o as [c|]; [|reflexivity]. cbn. unfold is_word.
  intro H. now apply orb_false_elim in H.
Qed.

Lemma last_char_app (prev : option char) (a b : pystr) :
  last_char prev (a ++ b) = last_char (last_char prev a) b.
Proof. apply fold_left_app. Qed.

Lemma last_char_in (prev : option char) (a : pystr) :
  a <> [] -> exists c, last_char prev a = Some c /\ In c a.
Proof.
  revert prev. induction a as [|c a IH]; intros prev H; [contradiction|].
  destruct a as [|d a].
  - exists c. split; [reflexivity | now left].
  - destruct (IH (Some c)) as (x & Hx & Hin); [discriminate|].
    exists x. split; [exact Hx | now right].
Qed.

Lemma match_times (items : list setitem) (k : regex) (n : nat) :
  forall prev s m,
    match_here (times n (In_ items) ++ k) prev s = Some m <->
    exists a rest m',
      s = a ++ rest /\ length a = n
      /\ Forall (fun c => in_set items c = true) a
      /\ match_here k (last_char prev a) rest = Some m'
      /\ m = a ++ m'.
Proof.
  unfold times. induction n as [|n IH]; intros prev s m.
  - cbn [repeat app]. split.
    + intro H. exists [], s, m. repeat split; auto.
    + intros (a & rest & m' & -> & Ha & _ & Hm & ->).
      apply length_zero_iff_nil in Ha. subst a. exact Hm.
  - cbn [repeat app match_here]. split.
    + destruct s as [|c s]; [discriminate|].
      destruct (in_set items c) eqn:Hc; [|discriminate].
      destruct (match_here (repeat (In_ items) n ++ k) (Some c) s)
        as [m0|] eqn:E; [|discriminate].
      intro H. injection H as <-.
      apply IH in E. destruct E as (a & rest & m' & -> & Hlen & Hall & Hm & ->).
      exists (c :: a), rest, m'. repeat split; cbn; auto.
    + intros (a & rest & m' & -> & Hlen & Hall & Hm & ->).
      destruct a as [|c a]; [discriminate Hlen|].
      inversion Hall as [|? ? Hc Hall']; subst.
      cbn [app]. rewrite Hc.
      replace (match_here (repeat (In_ items) n ++ k) (Some c) (a ++ rest))
        with (Some (a ++ m')); [reflexivity|].
      symmetry. apply IH. exists a, rest, m'.
      repeat split; auto.
Qed.

Lemma match_token (prev : option char) (s m : pystr) :
  match_here Uci.uci_pattern prev s = Some m <->
  word_at prev = false
  /\ exists post,
       s = m ++ post /\ length m = 13%nat
       /\ Forall (fun c => Spec.token_char c = true) m
       /\ word_at (hd_error post) = false.
Proof.
  unfold Uci.uci_pattern.
  change ([AtBoundary] ++ ?p) with (AtBoundary :: p).
  cbn [match_here]. split.
  - destruct (at_boundary prev s) eqn:Hb; [|discriminate].
    intro H. apply match_times in H.
    destruct H as (a & rest & m' & -> & Hlen & Hall & Hm & ->).
    cbn [match_here] in Hm.
    destruct (at_boundary (last_char prev a) rest) eqn:Hb'; [|discriminate].
    injection Hm as <-. rewrite app_nil_r.
    assert (Htok : Forall (fun c => Spec.token_char c = true) a).
    { eapply Forall_impl; [|exact Hall].
      intros c Hc. unfold Spec.token_char. now rewrite <- in_set_marker. }
    destruct a as [|c a]; [discriminate Hlen|].
    unfold at_boundary in Hb, Hb'.
    destruct (last_char_in prev (c :: a)) as (z & Hz & Hin); [discriminate|].
    rewrite Hz in Hb'. rewrite Forall_forall in Htok.
    cbn [app hd_error word_at] in Hb, Hb'.
    rewrite (token_char_word c) in Hb by (apply Htok; now left).
    rewrite (token_char_word z) in Hb' by (apply Htok; exact Hin).
    split.
    + now destruct (word_at prev).
    + exists rest. repeat split; auto.
      * apply Forall_forall. exact Htok.
      * now destruct (word_at (hd_error rest)).
  - intros (Hprev & post & -> & Hlen & Htok & Hpost).
    destruct m as [|c m]; [discriminate Hlen|].
    destruct (last_char_in prev (c :: m)) as (z & Hz & Hin); [discriminate|].
    rewrite Forall_forall in Htok.
    unfold at_boundary. cbn [app hd_error word_at]. rewrite Hprev.
    rewrite (token_char_word c) by (apply Htok; now left). cbn [xorb].
    apply match_times. exists (c :: m), post, [].
    repeat split; auto.
    + apply Forall_forall. intros x Hx. rewrite in_set_marker.
      now apply Htok.
    + cbn [match_here]. unfold at_boundary. rewrite Hz, Hpost.
      cbn [word_at]. rewrite (token_char_word z) by now apply Htok.
      reflexivity.
    + now rewrite app_nil_r.
Qed.

(** ** The scan *)

Lemma scan_from_nil (pos : nat) (prev : option char) (skip : nat) :
  scan_from Uci.uci_pattern pos prev skip [] = [].
Proof.
  destruct skip as [|k]; cbn [scan_from]; [|reflexivity].
  destruct (match_here Uci.uci_pattern prev []) as [m|] eqn:E; [|reflexivity].
  apply match_token in E. destruct E as (_ & post & Hs & Hlen & _).
  destruct m; [discriminate Hlen | discriminate Hs].
Qed.

Lemma scan_from_sound (s : pystr) :
  forall pos prev skip i t,
    In (i, t) (scan_from Uci.uci_pattern pos prev skip s) ->
    exists a post,
      s = a ++ t ++ post /\ i = (pos + length a)%nat
      /\ length t = 13%nat
      /\ Forall (fun c => Spec.token_char c = true) t
      /\ word_at (last_char prev a) = false
      /\ word_at (hd_error post) = false.
Proof.
  induction s as [|c s IH]; intros pos prev skip i t Hin.
  - rewrite scan_from_nil in Hin. contradiction.
  - assert (Hrest : forall k,
               In (i, t) (scan_from Uci.uci_pattern (S pos) (Some c) k s) ->
               exists a post,
                 c :: s = a ++ t ++ post /\ i = (pos + length a)%nat
                 /\ length t = 13%nat
                 /\ Forall (fun c => Spec.token_char c = true) t
                 /\ word_at (last_char prev a) = false
                 /\ word_at (hd_error post) = false).
    { intros k Hk. apply IH in Hk.
      destruct Hk as (a & post & -> & -> & Hlen & Htok & Hl & Hr).
      exists (c :: a), post. repeat split; auto; cbn [length]; lia. }
    destruct skip as [|k]; cbn [scan_from] in Hin; [|now apply (Hrest k)].
    destruct (match_here Uci.uci_pattern prev (c :: s)) as [m|] eqn:E;
      [|now apply (Hrest 0%nat)].
    destruct Hin as [Hhd | Htl]; [|now apply (Hrest (length m - 1)%nat)].
    injection Hhd as <- <-.
    apply match_token in E. destruct E as (Hl & post & Hs & Hlen & Htok & Hr).
    exists [], post. repeat split; auto.
Qed.

Lemma scan_from_complete (a : pystr) :
  forall pos prev skip t post,
    Forall (fun c => is_word c = true) (firstn skip (a ++ t ++ post)) ->
    (skip <> 0%nat -> word_at prev = true) ->
    length t = 13%nat ->
    Forall (fun c => Spec.token_char c = true) t ->
    word_at (last_char prev a) = false ->
    word_at (hd_error post) = false ->
    In ((pos + length a)%nat, t)
       (scan_from Uci.uci_pattern pos prev skip (a ++ t ++ post)).
Proof.
  induction a as [|c a IH]; intros pos prev skip t post Hskip Hprev Hlen Htok Hl Hr.
  - cbn [last_char fold_left] in Hl. cbn [app length].
    destruct skip as [|k]; [|rewrite Hprev in Hl; discriminate].
    replace (pos + 0)%nat with pos by lia.
    assert (E : match_here Uci.uci_pattern prev (t ++ post) = Some t).
    { apply match_token. split; [exact Hl|]. exists post. auto. }
    destruct t as [|x t]; [discriminate Hlen|].
    cbn [app scan_from] in *. rewrite E. now left.
  - cbn [app length]. replace (pos + S (length a))%nat
      with (S pos + length a)%nat by lia.
    change (last_char prev (c :: a)) with (last_char (Some c) a) in Hl.
    destruct skip as [|k]; cbn [scan_from].
    + destruct (match_here Uci.uci_pattern prev (c :: a ++ t ++ post))
        as [m|] eqn:E.
      * right. apply match_token in E.
        destruct E as (_ & post' & Hs & Hm & Hmtok & _).
        destruct m as [|x m]; [discriminate Hm|].
        cbn [app] in Hs. injection Hs as <- Hs.
        cbn [length] in *. replace (S (length m) - 1)%nat with (length m) by lia.
        inversion Hmtok as [|? ? Hx Hmtok']; subst.
        apply IH; auto.
        -- rewrite Hs, firstn_app, Nat.sub_diag, firstn_all. cbn [firstn].
           rewrite app_nil_r.
           eapply Forall_impl; [|exact Hmtok']. apply token_char_word.
        -- intros _. cbn [word_at]. now apply token_char_word.
      * apply IH; auto.
    + cbn [app firstn] in Hskip. inversion Hskip as [|? ? Hc Hk]; subst.
      apply IH; auto.
Qed.

Lemma scan_from_ge (p : regex) (s : pystr) :
  forall pos prev skip i t,
    In (i, t) (scan_from p pos prev skip s) -> (pos <= i)%nat.
Proof.
  induction s as [|c s IH]; intros pos prev skip i t Hin.
  - destruct skip; cbn [scan_from] in Hin; [|contradiction].
    destruct (match_here p prev []); [|contradiction].
    destruct Hin as [H|[]]. injection H as <- _. lia.
  - destruct skip as [|k]; cbn [scan_from] in Hin.
    + destruct (match_here p prev (c :: s)).
      * destruct Hin as [H|H]; [injection H as <- _; lia|].
        apply IH in H. lia.
      * apply IH in Hin. lia.
    + apply IH in Hin. lia.
Qed.

Lemma scan_from_sorted (p : regex) (s : pystr) :
  forall pos prev skip,
    StronglySorted lt (map fst (scan_from p pos prev skip s)).
Proof.
  induction s as [|c s IH]; intros pos prev skip.
  - destruct skip; cbn [scan_from]; [|constructor].
    destruct (match_here p prev []); repeat constructor.
  - destruct skip as [|k]; cbn [scan_from]; [|apply IH].
    destruct (match_here p prev (c :: s)); [|apply IH].
    cbn [map fst]. constructor; [apply IH|].
    apply Forall_forall. intros i Hi. apply in_map_iff in Hi.
    destruct Hi as ([j t] & <- & Hin). apply scan_from_ge in Hin.
    cbn [fst]. lia.
Qed.

Lemma app_same_length {A : Type} (a a' b b' : list A) :
  length a = length a' -> a ++ b = a' ++ b' -> a = a' /\ b = b'.
Proof.
  revert a'. induction a as [|x a IH]; intros [|y a'] Hlen H;
    try discriminate Hlen.
  - now split.
  - cbn [app] in H. injection H as -> H. injection Hlen as Hlen.
    destruct (IH a' Hlen H) as [-> ->]. now split.
Qed.

Lemma finditer_sound (text : pystr) (i : nat) (t : pystr) :
  In (i, t) (finditer Uci.uci_pattern text) ->
  exists a post,
    text = a ++ t ++ post /\ i = length a /\ length t = 13%nat
    /\ Forall (fun c => Spec.token_char c = true) t
    /\ word_at (last_char None a) = false
    /\ word_at (hd_error post) = false.
Proof.
  intro H. apply scan_from_sound in H.
  destruct H as (a & post & H). exists a, post. exact H.
Qed.

(** ** The scanner *)

(** C7: every token of the scan has exactly 13 characters and stands in
    the text between the start or a character that is not alphanumeric
    and the end or a character that is not alphanumeric; a run of 13
    characters with an alphanumeric neighbour is not reported. *)
Theorem scanner_tokens_bounded (text : pystr) :
  (forall t, In t (findall Uci.uci_pattern text) ->
     length t = 13%nat
     /\ exists a post,
          text = a ++ t ++ post
          /\ In (length a, t) (finditer Uci.uci_pattern text)
          /\ Spec.alnum_at (last_char None a) = false
          /\ Spec.alnum_at (hd_error post) = false)
  /\ (forall a t post,
        text = a ++ t ++ post -> length t = 13%nat ->
        Spec.alnum_at (last_char None a) = true
        \/ Spec.alnum_at (hd_error post) = true ->
        ~ In (length a) (map fst (finditer Uci.uci_pattern text))).
Proof.
  split.
  - intros t Hin. unfold findall in Hin. apply in_map_iff in Hin.
    destruct Hin as ([i t'] & Ht & Hin). cbn [snd] in Ht. subst t'.
    destruct (finditer_sound text i t Hin)
      as (a & post & Htext & -> & Hlen & _ & Hl & Hr).
    split; [exact Hlen|]. exists a, post.
    repeat split; auto using word_alnum.
  - intros a t post Htext Hlen Hnb Hin. apply in_map_iff in Hin.
    destruct Hin as ([i t'] & Hi & Hin). cbn [fst] in Hi. subst i.
    destruct (finditer_sound text _ t' Hin)
      as (a' & post' & Htext' & Ha & Hlen' & _ & Hl & Hr).
    rewrite Htext in Htext'.
    destruct (app_same_length _ _ _ _ Ha Htext') as [<- Hrest].
    destruct (app_same_length _ _ _ _ (eq_trans Hlen (eq_sym Hlen')) Hrest)
      as [_ <-].
    apply word_alnum in Hl, Hr. destruct Hnb; congruence.
Qed.

Lemma scanner_tokens_bounded_witness :
  length (str "000000000000A") = 13%nat
  /\ ~ In 1%nat (map fst (finditer Uci.uci_pattern (str "X000000000000A"))).
Proof.
  split.
  - apply (proj1 (scanner_tokens_bounded (str "UCI: 000000000000A."))).
    vm_compute. now left.
  - apply (proj2 (scanner_tokens_bounded (str "X000000000000A"))
             (str "X") (str "000000000000A") []); try reflexivity.
    now left.
Defined.

(** C2 fails as stated: an underscore is not alphanumeric, and a run of
    13 token characters between an underscore and the end of the text is
    not found. *)
Lemma underscore_bounded_token_missed :
  str "_000000000000A" = str "_" ++ str "000000000000A" ++ []
  /\ length (str "000000000000A") = 13%nat
  /\ forallb Spec.token_char (str "000000000000A") = true
  /\ isalnum (ch "_") = false
  /\ Spec.alnum_at (last_char None (str "_")) = false
  /\ Spec.alnum_at (hd_error (@nil char)) = false
  /\ findall Uci.uci_pattern (str "_000000000000A") = [].
Proof. repeat split. Qed.

(** C2, as the code has it: the scan finds every run of exactly 13
    characters of A-Z and 0-9 that stands between the start of the text
    or a character that is neither alphanumeric nor an underscore, and
    the end of the text or such a character; the candidates come in the
    order of their positions, left to right. *)
Theorem scanner_finds_word_bounded (text : pystr) :
  (forall a t post,
     text = a ++ t ++ post ->
     length t = 13%nat ->
     Forall (fun c => Spec.token_char c = true) t ->
     word_at (last_char None a) = false ->
     word_at (hd_error post) = false ->
     In (length a, t) (finditer Uci.uci_pattern text)
     /\ In t (findall Uci.uci_pattern text))
  /\ StronglySorted lt (map fst (finditer Uci.uci_pattern text))
  /\ findall Uci.uci_pattern text
     = map snd (finditer Uci.uci_pattern text).
Proof.
  split; [|split; [apply scan_from_sorted | reflexivity]].
  intros a t post -> Hlen Htok Hl Hr.
  assert (H : In (length a, t) (finditer Uci.uci_pattern (a ++ t ++ post))).
  { apply (scan_from_complete a 0 None 0 t post); auto. }
  split; [exact H|].
  unfold findall. apply in_map_iff. exists (length a, t). now split.
Qed.

Lemma scanner_finds_word_bounded_witness :
  In (str "000000000000A") (findall Uci.uci_pattern (str "-000000000000A-")).
Proof.
  apply (proj1 (scanner_finds_word_bounded (str "-000000000000A-"))
           (str "-") (str "000000000000A") (str "-")); try reflexivity.
  repeat constructor.
Defined.

(** ** What the check character detects *)

Lemma valid_spec (s : pystr) :
  Uci.is_valid_uci s = Ok true <-> Spec.valid s.
Proof.
  unfold Spec.valid.
  destruct (Spec.lexical_shape s) eqn:Hshape.
  - destruct (is_valid_uci_on_shape s Hshape)
      as (calc & c12 & Hexp & Hlast & _ & Hres).
    rewrite Hres, Hexp, Hlast. split.
    + intro H. injection H as H. apply N.eqb_eq in H. now subst.
    + intros [_ H]. injection H as ->. now rewrite N.eqb_refl.
  - rewrite (is_valid_uci_off_shape s Hshape). split.
    + discriminate.
    + intros [H _]. discriminate H.
Qed.

Lemma not_valid_false (s : pystr) :
  ~ Spec.valid s -> Uci.is_valid_uci s = Ok false.
Proof.
  intro H. rewrite accepts_iff. f_equal.
  destruct (Spec.accepts s) eqn:E; [|reflexivity].
  exfalso. apply H, valid_spec. now rewrite accepts_iff, E.
Qed.

Lemma sum_mod_distinct (S w d : Z) :
  1 <= w <= 16 -> -16 <= d <= 16 -> d <> 0 ->
  (S + d * w) mod 17 <> S mod 17.
Proof.
  intros Hw Hd Hnz H.
  assert (Hc : w = 1 \/ w = 2 \/ w = 3 \/ w = 4 \/ w = 5 \/ w = 6 \/ w = 7
               \/ w = 8 \/ w = 9 \/ w = 10 \/ w = 11 \/ w = 12 \/ w = 13
               \/ w = 14 \/ w = 15 \/ w = 16) by lia.
  repeat (destruct Hc as [-> | Hc];
          [Z.to_euclidean_division_equations; lia|]).
  subst. Z.to_euclidean_division_equations; lia.
Qed.

Lemma expected_check_inj (a b : Z) :
  Spec.expected_check a = Spec.expected_check b -> a mod 17 = b mod 17.
Proof.
  unfold Spec.expected_check.
  pose proof (Z.mod_pos_bound a 17 ltac:(lia)) as Ha.
  pose proof (Z.mod_pos_bound b 17 ltac:(lia)) as Hb.
  intro H. apply Z2Nat.inj; try lia.
  assert (Hn : (Z.to_nat (a mod 17) < 17)%nat) by lia.
  assert (Hm : (Z.to_nat (b mod 17) < 17)%nat) by lia.
  revert H Hn Hm.
  generalize (Z.to_nat (a mod 17)) (Z.to_nat (b mod 17)). intros n m.
  do 17 (destruct n as [|n]; [
    do 17 (destruct m as [|m]; [intros; (reflexivity || discriminate)|]);
    intros; lia |]).
  intros; lia.
Qed.

Lemma expected_check_letter (a : Z) :
  exists c, Spec.expected_check a = Some c /\ Spec.check_letter c = true.
Proof.
  unfold Spec.expected_check.
  pose proof (Z.mod_pos_bound a 17 ltac:(lia)) as Ha.
  assert (Hn : (Z.to_nat (a mod 17) < 17)%nat) by lia.
  revert Hn. generalize (Z.to_nat (a mod 17)). intro n.
  do 17 (destruct n as [|n]; [intros; eexists; split; reflexivity|]).
  intros; lia.
Qed.

Lemma digit_value_inj (a b : char) :
  Spec.ascii_digit a = true -> Spec.ascii_digit b = true ->
  Spec.digit_value a = Spec.digit_value b -> a = b.
Proof.
  intros Ha Hb. each_of Ha; each_of Hb; vm_compute; intro E;
    (reflexivity || discriminate E).
Qed.

Lemma digit_decimal_value (c : char) :
  Spec.digit c = true -> decimal_value c = Some (Spec.digit_value c).
Proof.
  unfold Spec.digit, isdecimal, Spec.digit_value.
  now destruct (decimal_value c).
Qed.

Lemma decimal_value_digit (c : char) (v : Z) :
  decimal_value c = Some v -> Spec.digit c = true /\ Spec.digit_value c = v.
Proof.
  unfold Spec.digit, isdecimal, Spec.digit_value. intros ->. now split.
Qed.

Lemma value_digit (i : nat) (c : char) :
  Spec.digit c = true ->
  Spec.value i c = Spec.digit_value c /\ 0 <= Spec.digit_value c <= 9.
Proof.
  intro H. destruct (digit_facts c H) as (_ & Hu & _ & Hb).
  unfold Spec.value. now rewrite Hu, andb_false_r.
Qed.

Lemma value_bounds (c : char) :
  Spec.token_char c = true -> 0 <= Spec.value 5 c <= 16.
Proof.
  intro H. apply orb_prop in H.
  destruct H as [H|H]; each_of H; vm_compute; split; discriminate.
Qed.

Lemma check_letter_not_digit (c : char) :
  Spec.check_letter c = true -> Spec.digit c = false.
Proof. intro H. each_of H; vm_compute; reflexivity. Qed.

Lemma weight_at (i : nat) :
  (i < 12)%nat -> nth i Spec.weights 0 = 16 - Z.of_nat i.
Proof.
  intro H. do 12 (destruct i as [|i]; [reflexivity|]). lia.
Qed.

Lemma replace_at_length (i : nat) (c : char) (s : pystr) :
  length (Edit.replace_at i c s) = length s.
Proof.
  revert i. induction s as [|x s IH]; intros [|i]; cbn; auto.
Qed.

Lemma replace_at_same (i : nat) (c : char) (s : pystr) :
  (i < length s)%nat -> nth_error (Edit.replace_at i c s) i = Some c.
Proof.
  revert i. induction s as [|x s IH]; intros [|i] H; cbn in *;
    try lia; [reflexivity | apply IH; lia].
Qed.

Lemma replace_at_other (i k : nat) (c : char) (s : pystr) :
  i <> k -> nth_error (Edit.replace_at i c s) k = nth_error s k.
Proof.
  revert i k. induction s as [|x s IH]; intros [|i] [|k] H; cbn;
    try reflexivity; try contradiction; apply IH; lia.
Qed.

Lemma weighted_sum_replace (i : nat) (c : char) (s : pystr) :
  length s = 13%nat -> (i < 12)%nat ->
  Spec.weighted_sum (Edit.replace_at i c s)
  = Spec.weighted_sum s
    + (Spec.value i c - Spec.value i (nth i s (ch "0")))
      * nth i Spec.weights 0.
Proof.
  intros Hlen Hi.
  do 14 (destruct s as [|? s]; try discriminate Hlen).
  unfold Spec.weighted_sum.
  do 12 (destruct i as [|i];
         [cbn [Edit.replace_at seq map fold_right nth Spec.weights]; ring|]).
  lia.
Qed.

Lemma replace_at_nth_other (i k : nat) (c d : char) (s : pystr) :
  i <> k -> nth k (Edit.replace_at i c s) d = nth k s d.
Proof.
  revert i k. induction s as [|x s IH]; intros [|i] [|k] H; cbn;
    try reflexivity; try contradiction; apply IH; lia.
Qed.

Lemma weighted_sum_replace_last (c : char) (s : pystr) :
  Spec.weighted_sum (Edit.replace_at 12 c s) = Spec.weighted_sum s.
Proof.
  unfold Spec.weighted_sum. f_equal. apply map_ext_in.
  intros i Hi. apply in_seq in Hi.
  rewrite replace_at_nth_other by lia. reflexivity.
Qed.

Lemma shape_intro (c0 c1 c2 c3 c4 c5 c6 c7 c8 c9 c10 c11 c12 : char) :
  Forall (fun c => Spec.digit c = true)
    [c0; c1; c2; c3; c4; c6; c7; c8; c9; c10; c11] ->
  Spec.token_char c5 = true ->
  Spec.check_letter c12 = true ->
  Spec.lexical_shape [c0; c1; c2; c3; c4; c5; c6; c7; c8; c9; c10; c11; c12]
  = true.
Proof.
  intros Hd Hm Hc.
  repeat match goal with
         | H : Forall _ (_ :: _) |- _ => inversion H; subst; clear H
         end.
  unfold Spec.lexical_shape, Spec.token_char in *. cbn [forallb].
  repeat match goal with
         | H : _ = true |- _ => rewrite H; clear H
         end.
  reflexivity.
Qed.

Lemma shape_replace_marker (c : char) (s : pystr) :
  Spec.lexical_shape s = true -> Spec.token_char c = true ->
  Spec.lexical_shape (Edit.replace_at 5 c s) = true.
Proof.
  intros H Hc.
  destruct (shape_inv s H)
    as (c0&c1&c2&c3&c4&c5&c6&c7&c8&c9&c10&c11&c12&->&Hd&_&Hk).
  cbn [Edit.replace_at]. now apply shape_intro.
Qed.

Lemma shape_replace_last (c : char) (s : pystr) :
  Spec.lexical_shape s = true -> Spec.check_letter c = true ->
  Spec.lexical_shape (Edit.replace_at 12 c s) = true.
Proof.
  intros H Hc.
  destruct (shape_inv s H)
    as (c0&c1&c2&c3&c4&c5&c6&c7&c8&c9&c10&c11&c12&->&Hd&Hm&_).
  cbn [Edit.replace_at]. now apply shape_intro.
Qed.

Lemma shape_digit_at (s : pystr) (i : nat) (c : char) :
  Spec.lexical_shape s = true -> (i < 12)%nat -> i <> 5%nat ->
  nth_error s i = Some c -> Spec.digit c = true.
Proof.
  intros H Hi Hn5 Hn. pose proof (shape_positions s i c H Hi Hn) as Hc.
  apply Nat.eqb_neq in Hn5. now rewrite Hn5 in Hc.
Qed.

Lemma nth_of_nth_error (s : pystr) (i : nat) (c d : char) :
  nth_error s i = Some c -> nth i s d = c.
Proof. intro H. now apply nth_error_nth. Qed.

Lemma nth_error_in_range (s : pystr) (i : nat) :
  (i < length s)%nat -> exists c, nth_error s i = Some c.
Proof.
  intro H. destruct (nth_error s i) as [c|] eqn:E; [eauto|].
  apply nth_error_None in E. lia.
Qed.

Lemma shape_replace_digit (i : nat) (c : char) (s : pystr) :
  Spec.lexical_shape s = true -> (i < 12)%nat -> i <> 5%nat ->
  Spec.digit c = true ->
  Spec.lexical_shape (Edit.replace_at i c s) = true.
Proof.
  intros H Hi Hn5 Hc.
  destruct (shape_inv s H)
    as (c0&c1&c2&c3&c4&c5&c6&c7&c8&c9&c10&c11&c12&->&Hd&Hm&Hk).
  repeat match goal with
         | H : Forall _ (_ :: _) |- _ => inversion H; subst; clear H
         end.
  do 12 (destruct i as [|i];
         [try (now contradiction Hn5);
          cbn [Edit.replace_at]; apply shape_intro; auto;
          repeat constructor; assumption|]).
  lia.
Qed.

(** X1: in a valid UCI, another character in the place of a digit gives
    a valid UCI exactly when it is a decimal digit, of any script, of
    the same value, and no other character does in the last place; one
    of the digits 0 to 9 in the place of another one of them is
    rejected. *)
Theorem substitution_detected (s : pystr) (i : nat) (c : char) :
  Uci.is_valid_uci s = Ok true ->
  (i < 13)%nat -> i <> 5%nat -> nth_error s i <> Some c ->
  (Uci.is_valid_uci (Edit.replace_at i c s) = Ok true
   <-> (i < 12)%nat
       /\ decimal_value c = decimal_value (nth i s (ch "0")))
  /\ (Spec.ascii_digit c = true ->
      Spec.ascii_digit (nth i s (ch "0")) = true ->
      Uci.is_valid_uci (Edit.replace_at i c s) = Ok false).
Proof.
  intros Hv Hi Hn5 Hdiff. apply valid_spec in Hv. destruct Hv as [Hshape Hexp].
  pose proof (shape_length s Hshape) as Hlen.
  destruct (nth_error_in_range s i ltac:(lia)) as [old Hold].
  rewrite (nth_of_nth_error s i old _ Hold).
  assert (Hiff : Uci.is_valid_uci (Edit.replace_at i c s) = Ok true
                 <-> (i < 12)%nat /\ decimal_value c = decimal_value old).
  { rewrite valid_spec. unfold Spec.valid.
    destruct (Nat.eq_dec i 12) as [->|Hn12].
    - split; [|intros [H _]; lia].
      intros [_ Hexp']. exfalso.
      rewrite weighted_sum_replace_last, Hexp in Hexp'.
      rewrite replace_at_same in Hexp' by lia. contradiction.
    - assert (Hi' : (i < 12)%nat) by lia.
      assert (Hdo : Spec.digit old = true) by eauto using shape_digit_at.
      destruct (value_digit i old Hdo) as [Eo Hbo].
      rewrite replace_at_other, <- Hexp by lia.
      rewrite weighted_sum_replace by assumption.
      rewrite (nth_of_nth_error s i old _ Hold), Eo.
      rewrite (digit_decimal_value old Hdo).
      split.
      + intros [Hshape' Hexp']. split; [exact Hi'|].
        assert (Hdc : Spec.digit c = true).
        { apply (shape_digit_at _ i c Hshape'); auto.
          apply replace_at_same. lia. }
        destruct (value_digit i c Hdc) as [Ec Hbc]. rewrite Ec in Hexp'.
        rewrite (digit_decimal_value c Hdc). f_equal.
        apply expected_check_inj in Hexp'.
        destruct (Z.eq_dec (Spec.digit_value c) (Spec.digit_value old))
          as [E|E]; [exact E|].
        exfalso. revert Hexp'. apply sum_mod_distinct; try lia.
        rewrite weight_at by assumption. lia.
      + intros [_ E]. apply decimal_value_digit in E. destruct E as [Hdc Ev].
        destruct (value_digit i c Hdc) as [Ec _]. split.
        * now apply shape_replace_digit.
        * rewrite Ec, Ev. f_equal. ring. }
  split; [exact Hiff|].
  intros Hac Hao. apply not_valid_false. intro Hvalid.
  apply valid_spec, Hiff in Hvalid. destruct Hvalid as [_ E].
  apply Hdiff. rewrite Hold. f_equal. symmetry.
  apply digit_value_inj; auto.
  rewrite (digit_decimal_value c), (digit_decimal_value old) in E
    by now apply ascii_digit_facts.
  now injection E.
Qed.

Lemma substitution_detected_witness :
  Uci.is_valid_uci (str "12345A678901H") = Ok true
  /\ Uci.is_valid_uci (str "12345A678907H") = Ok false
  /\ Uci.is_valid_uci
       (Edit.replace_at 4 65301%N (str "12345A678901H")) = Ok true.
Proof.
  split; [reflexivity|]. split.
  - apply (proj2 (substitution_detected (str "12345A678901H") 11 (ch "7")
                    eq_refl ltac:(lia) ltac:(discriminate)
                    ltac:(discriminate))); reflexivity.
  - apply (proj1 (substitution_detected (str "12345A678901H") 4 65301%N
                    eq_refl ltac:(lia) ltac:(discriminate)
                    ltac:(discriminate))).
    split; [lia | reflexivity].
Defined.

Lemma swap_valid_digits (s : pystr) (i : nat) (a b : char) :
  Spec.valid s ->
  Spec.valid (Edit.replace_at i b (Edit.replace_at (S i) a s)) ->
  (i < 12)%nat -> nth_error s i = Some a -> nth_error s (S i) = Some b ->
  Spec.digit a = true /\ Spec.digit b = true
  /\ Spec.digit_value a = Spec.digit_value b.
Proof.
  intros [Hshape Hexp] [Hshape' Hexp'] Hi Ha Hb.
  pose proof (shape_length s Hshape) as Hlen.
  pose (s1 := Edit.replace_at (S i) a s).
  assert (Hlen1 : length s1 = 13%nat)
    by (unfold s1; now rewrite replace_at_length).
  fold s1 in Hshape', Hexp'.
  assert (Hpos_i : nth_error (Edit.replace_at i b s1) i = Some b)
    by (apply replace_at_same; lia).
  assert (Hpos_Si : nth_error (Edit.replace_at i b s1) (S i) = Some a).
  { rewrite replace_at_other by lia. apply replace_at_same. lia. }
  destruct (Nat.eq_dec i 11) as [->|Hn11].
  - exfalso.
    destruct (is_valid_uci_on_shape s Hshape) as (_ & c12 & _ & Hl & Hk & _).
    rewrite Hb in Hl. injection Hl as <-.
    apply check_letter_not_digit in Hk.
    rewrite (shape_digit_at _ 11 b Hshape') in Hk by (auto; lia).
    discriminate Hk.
  - assert (Hi' : (S i < 12)%nat) by lia.
    assert (Hda : Spec.digit a = true).
    { destruct (Nat.eq_dec i 5) as [->|Hn5].
      - apply (shape_digit_at _ 6 a Hshape'); auto; lia.
      - apply (shape_digit_at _ i a Hshape); auto; lia. }
    assert (Hdb : Spec.digit b = true).
    { destruct (Nat.eq_dec i 4) as [->|Hn4].
      - apply (shape_digit_at _ 4 b Hshape'); auto; lia.
      - apply (shape_digit_at _ (S i) b Hshape); auto; lia. }
    split; [exact Hda|]. split; [exact Hdb|].
    assert (H12 : nth_error (Edit.replace_at i b s1) 12 = nth_error s 12)
      by (unfold s1; rewrite !replace_at_other by lia; reflexivity).
    rewrite H12, <- Hexp in Hexp'.
    apply expected_check_inj in Hexp'.
    rewrite weighted_sum_replace in Hexp' by (auto; lia).
    unfold s1 in Hexp' at 1.
    rewrite weighted_sum_replace in Hexp' by (auto; lia).
    rewrite (nth_of_nth_error s (S i) b _ Hb) in Hexp'.
    assert (Ha1 : nth_error s1 i = Some a)
      by (unfold s1; rewrite replace_at_other by lia; exact Ha).
    rewrite (nth_of_nth_error s1 i a _ Ha1) in Hexp'.
    rewrite !weight_at in Hexp' by lia.
    destruct (value_digit i a Hda) as [Eia Hba].
    destruct (value_digit i b Hdb) as [Eib Hbb].
    destruct (value_digit (S i) a Hda) as [Esa _].
    destruct (value_digit (S i) b Hdb) as [Esb _].
    rewrite Eia, Eib, Esa, Esb, Nat2Z.inj_succ in Hexp'.
    replace (Spec.weighted_sum s
             + (Spec.digit_value a - Spec.digit_value b)
               * (16 - Z.succ (Z.of_nat i))
             + (Spec.digit_value b - Spec.digit_value a)
               * (16 - Z.of_nat i))
      with (Spec.weighted_sum s
            + (Spec.digit_value b - Spec.digit_value a) * 1)
      in Hexp' by ring.
    destruct (Z.eq_dec (Spec.digit_value a) (Spec.digit_value b))
      as [E|E]; [exact E|].
    exfalso. revert Hexp'. apply sum_mod_distinct; lia.
Qed.

(** X2: a valid UCI in which two neighbouring characters are exchanged
    is rejected, unless the two are decimal digits of the same value;
    it is rejected when the two are different characters below
    U+0080. *)
Theorem transposition_detected (s : pystr) (i : nat) (a b : char) :
  Uci.is_valid_uci s = Ok true ->
  (i < 12)%nat ->
  nth_error s i = Some a -> nth_error s (S i) = Some b ->
  decimal_value a <> decimal_value b
  \/ ((a < 128)%N /\ (b < 128)%N /\ a <> b) ->
  Uci.is_valid_uci (Edit.swap_at i s) = Ok false.
Proof.
  intros Hv Hi Ha Hb Hdiff. apply valid_spec in Hv.
  unfold Edit.swap_at. rewrite Ha, Hb.
  apply not_valid_false. intro Hv'.
  destruct (swap_valid_digits s i a b Hv Hv' Hi Ha Hb) as (Hda & Hdb & E).
  destruct Hdiff as [Hdiff | (Hal & Hbl & Hab)].
  - apply Hdiff.
    now rewrite (digit_decimal_value a Hda), (digit_decimal_value b Hdb), E.
  - apply Hab. apply digit_value_inj; auto using ascii_decimal.
Qed.

Lemma transposition_detected_witness :
  Uci.is_valid_uci (str "12345A678901H") = Ok true
  /\ Uci.is_valid_uci (str "12345A687901H") = Ok false.
Proof.
  split; [reflexivity|].
  apply (transposition_detected (str "12345A678901H") 7 (ch "7") (ch "8"));
    [reflexivity | lia | reflexivity | reflexivity |].
  right. repeat split; try reflexivity. discriminate.
Defined.

(** X3: in a valid UCI, another character at position 5 gives a valid
    UCI exactly when it is one of A-Z and 0-9 and has the same value in
    the checksum: letters and digits that share a value (J and Q, A and
    1, ...) stand for one another. *)
Theorem marker_substitution (s : pystr) (c : char) :
  Uci.is_valid_uci s = Ok true ->
  Uci.is_valid_uci (Edit.replace_at 5 c s) = Ok true
  <-> Spec.token_char c = true
      /\ Spec.value 5 c = Spec.value 5 (nth 5 s (ch "0")).
Proof.
  intro Hv. apply valid_spec in Hv. destruct Hv as [Hshape Hexp].
  pose proof (shape_length s Hshape) as Hlen.
  destruct (nth_error_in_range s 5 ltac:(lia)) as [old Hold].
  rewrite (nth_of_nth_error s 5 old _ Hold).
  pose proof (shape_positions s 5 old Hshape ltac:(lia) Hold) as Hto.
  cbn [Nat.eqb] in Hto. fold (Spec.token_char old) in Hto.
  rewrite valid_spec. unfold Spec.valid.
  rewrite replace_at_other, <- Hexp by lia.
  rewrite weighted_sum_replace by (auto; lia).
  rewrite (nth_of_nth_error s 5 old _ Hold).
  split.
  - intros [Hshape' Hexp'].
    pose proof (shape_positions _ 5 c Hshape' ltac:(lia)
                  (replace_at_same 5 c s ltac:(lia))) as Htc.
    cbn [Nat.eqb] in Htc. fold (Spec.token_char c) in Htc.
    split; [exact Htc|].
    apply expected_check_inj in Hexp'.
    pose proof (value_bounds c Htc). pose proof (value_bounds old Hto).
    destruct (Z.eq_dec (Spec.value 5 c) (Spec.value 5 old)) as [E|E];
      [exact E|].
    exfalso. revert Hexp'. apply sum_mod_distinct; cbn [nth Spec.weights]; lia.
  - intros [Htc E]. split.
    + now apply shape_replace_marker.
    + rewrite E. f_equal. ring.
Qed.

Lemma marker_substitution_witness :
  Uci.is_valid_uci (str "12345J678901E") = Ok true
  /\ Uci.is_valid_uci (str "12345Q678901E") = Ok true.
Proof.
  split; [reflexivity|].
  apply (marker_substitution (str "12345J678901E") (ch "Q"));
    [reflexivity | split; reflexivity].
Defined.

(** X4: a string of the lexical shape has exactly one character that,
    put in the last place, makes it a valid UCI. *)
Theorem unique_check_letter (s : pystr) :
  Spec.lexical_shape s = true ->
  exists c,
    Uci.is_valid_uci (Edit.replace_at 12 c s) = Ok true
    /\ forall c', Uci.is_valid_uci (Edit.replace_at 12 c' s) = Ok true ->
                  c' = c.
Proof.
  intro Hshape. pose proof (shape_length s Hshape) as Hlen.
  destruct (expected_check_letter (Spec.weighted_sum s)) as (c & Hc & Hk).
  exists c. split.
  - apply valid_spec. split.
    + now apply shape_replace_last.
    + rewrite weighted_sum_replace_last, replace_at_same by lia. exact Hc.
  - intros c' H. apply valid_spec in H. destruct H as [_ H].
    rewrite weighted_sum_replace_last, replace_at_same, Hc in H by lia.
    now injection H.
Qed.

Lemma unique_check_letter_witness :
  exists c,
    Uci.is_valid_uci (Edit.replace_at 12 c (str "12345A678901A")) = Ok true
    /\ forall c',
         Uci.is_valid_uci (Edit.replace_at 12 c' (str "12345A678901A"))
         = Ok true -> c' = c.
Proof.
  apply (unique_check_letter (str "12345A678901A")). reflexivity.
Defined.

(** ** The resolver on the whole text *)

Lemma shape_token_chars (s : pystr) :
  Spec.lexical_shape s = true ->
  Forall (fun c => (c < 128)%N) s ->
  Forall (fun c => Spec.token_char c = true) s.
Proof.
  intros H Hascii.
  destruct (shape_inv s H)
    as (c0&c1&c2&c3&c4&c5&c6&c7&c8&c9&c10&c11&c12&->&Hd&Hm&Hk).
  assert (Hkt : Spec.token_char c12 = true)
    by (clear - Hk; each_of Hk; reflexivity).
  rewrite Forall_forall in Hascii.
  assert (Hdt : forall c,
             In c [c0; c1; c2; c3; c4; c5; c6; c7; c8; c9; c10; c11; c12] ->
             Spec.digit c = true -> Spec.token_char c = true).
  { intros c Hin Hc. apply ascii_digit_facts, ascii_decimal; auto. }
  repeat match goal with
         | H : Forall _ (_ :: _) |- _ => inversion H; subst; clear H
         end.
  repeat constructor; auto; apply Hdt; auto; cbn [In]; tauto.
Qed.

Lemma bounded_token_found (a t post : pystr) :
  length t = 13%nat ->
  Forall (fun c => Spec.token_char c = true) t ->
  word_at (last_char None a) = false ->
  word_at (hd_error post) = false ->
  In (length a, t) (finditer Uci.uci_pattern (a ++ t ++ post)).
Proof.
  intros Hlen Htok Hl Hr.
  apply (scan_from_complete a 0 None 0 t post); auto.
Qed.

Lemma findall_sound (text t : pystr) :
  In t (findall Uci.uci_pattern text) ->
  exists a post,
    text = a ++ t ++ post /\ length t = 13%nat
    /\ word_at (last_char None a) = false
    /\ word_at (hd_error post) = false.
Proof.
  intro Hin. unfold findall in Hin. apply in_map_iff in Hin.
  destruct Hin as ([i t'] & Ht & Hin). cbn [snd] in Ht. subst t'.
  destruct (finditer_sound text i t Hin)
    as (a & post & Htext & _ & Hlen & _ & Hl & Hr).
  exists a, post. auto.
Qed.

Lemma find_all_equal {A : Type} (f : A -> bool) (l : list A) (u : A) :
  In u l -> (forall x, In x l -> x = u) -> f u = true ->
  find f l = Some u.
Proof.
  intros Hin Hall Hu. destruct l as [|x l]; [contradiction|].
  rewrite (Hall x (or_introl eq_refl)). cbn [find]. now rewrite Hu.
Qed.

(** X5: the UCI that extract_uci returns is valid, and stands in the
    page text between the start or a character that is no word
    character and the end or such a character. *)
Theorem extract_uci_sound (text u : pystr) :
  Uci.extract_uci text = Ok (Some u) ->
  Spec.valid u
  /\ exists a post,
       text = a ++ u ++ post
       /\ word_at (last_char None a) = false
       /\ word_at (hd_error post) = false.
Proof.
  rewrite extract_uci_find. intro H. injection H as H.
  apply find_some in H. destruct H as [Hin Hacc]. split.
  - apply valid_spec. now rewrite accepts_iff, Hacc.
  - destruct (findall_sound text u Hin) as (a & post & Ht & _ & Hl & Hr).
    exists a, post. auto.
Qed.

Lemma extract_uci_sound_witness :
  Spec.valid (str "12345A678901H").
Proof.
  apply (extract_uci_sound (str "UCI: 12345A678901H, page 3")).
  vm_compute. reflexivity.
Defined.

(** X6: a valid UCI of characters below U+0080, given as the whole
    text, is what extract_uci returns. *)
Theorem extract_uci_of_valid (u : pystr) :
  Uci.is_valid_uci u = Ok true ->
  Forall (fun c => (c < 128)%N) u ->
  Uci.extract_uci u = Ok (Some u).
Proof.
  intros Hv Hascii. rewrite extract_uci_find. f_equal.
  pose proof Hv as Hs. apply valid_spec in Hs. destruct Hs as [Hshape _].
  pose proof (shape_length u Hshape) as Hlen.
  apply find_all_equal.
  - unfold findall. apply in_map_iff. exists (0%nat, u). split; [reflexivity|].
    pose proof (bounded_token_found [] u [] Hlen
                  (shape_token_chars u Hshape Hascii) eq_refl eq_refl) as H.
    cbn [app length] in H. now rewrite app_nil_r in H.
  - intros t Ht.
    destruct (findall_sound u t Ht) as (a & post & Hu & Ht13 & _).
    assert (Hl : length u = (length a + (length t + length post))%nat)
      by (rewrite Hu at 1; now rewrite !length_app).
    destruct a; [|cbn in Hl; lia]. destruct post; [|cbn in Hl; lia].
    cbn [app] in Hu. now rewrite app_nil_r in Hu.
  - rewrite accepts_iff in Hv. now injection Hv.
Qed.

Lemma extract_uci_of_valid_witness :
  Uci.extract_uci (str "12345A678901H") = Ok (Some (str "12345A678901H")).
Proof.
  apply extract_uci_of_valid; [reflexivity|].
  repeat constructor.
Defined.

(** X7: of a page text in which a valid UCI of characters below U+0080
    stands between the start or a character that is no word character
    and the end or such a character, extract_uci returns a valid UCI,
    not None. *)
Theorem extract_uci_complete (a u post : pystr) :
  Uci.is_valid_uci u = Ok true ->
  Forall (fun c => (c < 128)%N) u ->
  word_at (last_char None a) = false ->
  word_at (hd_error post) = false ->
  exists u',
    Uci.extract_uci (a ++ u ++ post) = Ok (Some u')
    /\ Uci.is_valid_uci u' = Ok true.
Proof.
  intros Hv Hascii Hl Hr. rewrite extract_uci_find.
  pose proof Hv as Hs. apply valid_spec in Hs. destruct Hs as [Hshape _].
  assert (Hin : In u (findall Uci.uci_pattern (a ++ u ++ post))).
  { unfold findall. apply in_map_iff. exists (length a, u).
    split; [reflexivity|].
    apply bounded_token_found; auto using shape_length, shape_token_chars. }
  destruct (find Spec.accepts (findall Uci.uci_pattern (a ++ u ++ post)))
    as [u'|] eqn:E.
  - exists u'. split; [reflexivity|].
    apply find_some in E. rewrite accepts_iff. f_equal. apply E.
  - pose proof (find_none _ _ E u Hin) as Hn.
    rewrite accepts_iff in Hv. congruence.
Qed.

Lemma extract_uci_complete_witness :
  exists u',
    Uci.extract_uci (str "No. " ++ str "12345A678901H" ++ str " (OCR)")
    = Ok (Some u')
    /\ Uci.is_valid_uci u' = Ok true.
Proof.
  apply extract_uci_complete; try reflexivity.
  repeat constructor.
Defined.

(** ** Candidates do not overlap *)

Lemma last_char_snoc (prev : option char) (a : pystr) (z : char) :
  last_char prev (a ++ [z]) = Some z.
Proof. now rewrite last_char_app. Qed.

Lemma finditer_gap (text : pystr) (i j : nat) (t t' : pystr) :
  In (i, t) (finditer Uci.uci_pattern text) ->
  In (j, t') (finditer Uci.uci_pattern text) ->
  (i < j)%nat -> (i + 14 <= j)%nat.
Proof.
  intros Hi Hj Hlt.
  destruct (finditer_sound text i t Hi)
    as (a & post & Ht & -> & Hlen & Htok & _ & _).
  destruct (finditer_sound text j t' Hj)
    as (a' & post' & Ht' & -> & _ & _ & Hl' & _).
  destruct (le_lt_dec (length a + 14) (length a')) as [|Hnear]; [assumption|].
  exfalso.
  destruct a' as [|x a'] using rev_ind; [cbn in Hlt; lia|]. clear IHa'.
  rewrite last_char_snoc in Hl'. cbn [word_at] in Hl'.
  rewrite length_app in Hlt, Hnear. cbn [length] in Hlt, Hnear.
  assert (Hz : nth_error text (length a') = Some x).
  { rewrite Ht', <- app_assoc. rewrite nth_error_app2 by lia.
    now rewrite Nat.sub_diag. }
  rewrite Ht in Hz. rewrite nth_error_app2 in Hz by lia.
  rewrite nth_error_app1 in Hz by lia.
  apply nth_error_In in Hz. rewrite Forall_forall in Htok.
  apply Htok, token_char_word in Hz. congruence.
Qed.

Lemma gap_count (M : nat) (l : list nat) :
  forall x,
    StronglySorted lt (x :: l) ->
    (forall i j, In i (x :: l) -> In j (x :: l) ->
                 (i < j)%nat -> (i + 14 <= j)%nat) ->
    (forall i, In i (x :: l) -> (i <= M)%nat) ->
    (x + 14 * length l <= M)%nat.
Proof.
  induction l as [|y l IH]; intros x Hs Hgap Hb.
  - cbn [length]. specialize (Hb x (or_introl eq_refl)). lia.
  - inversion Hs as [|? ? Hs' Hx]; subst.
    inversion Hx as [|? ? Hxy _]; subst.
    assert (H14 : (x + 14 <= y)%nat)
      by (apply Hgap; cbn [In]; auto).
    assert (Hy : (y + 14 * length l <= M)%nat).
    { apply IH; auto.
      - intros i j Hi Hj. apply Hgap; now right.
      - intros i Hi. apply Hb. now right. }
    cbn [length]. lia.
Qed.

(** X8: two candidates of one scan do not overlap, and at least one
    character of the text lies between them. *)
Theorem candidates_apart (text : pystr) (i j : nat) (t t' : pystr) :
  In (i, t) (finditer Uci.uci_pattern text) ->
  In (j, t') (finditer Uci.uci_pattern text) ->
  (i < j)%nat -> (i + length t < j)%nat.
Proof.
  intros Hi Hj Hlt. pose proof (finditer_gap text i j t t' Hi Hj Hlt).
  destruct (finditer_sound text i t Hi) as (_ & _ & _ & _ & Hlen & _).
  lia.
Qed.

Lemma candidates_apart_witness :
  (1 + length (str "000000000000B") < 15)%nat.
Proof.
  apply (candidates_apart (str " 000000000000B 000000000000A")
           1 15 (str "000000000000B") (str "000000000000A")).
  - vm_compute. now left.
  - vm_compute. right. now left.
  - lia.
Defined.

(** X9: a text of n characters has at most (n + 1) / 14 candidates; one
    of fewer than 13 characters has none, and extract_uci returns None
    of it. *)
Theorem candidates_count (text : pystr) :
  (14 * length (findall Uci.uci_pattern text) <= length text + 1)%nat
  /\ ((length text < 13)%nat ->
      findall Uci.uci_pattern text = []
      /\ Uci.extract_uci text = Ok None).
Proof.
  assert (Hcount : (14 * length (findall Uci.uci_pattern text)
                    <= length text + 1)%nat).
  { unfold findall. rewrite length_map, <- (length_map fst).
    pose proof (scan_from_sorted Uci.uci_pattern text 0 None 0) as Hs.
    fold (finditer Uci.uci_pattern text) in Hs.
    assert (Hgap : forall i j,
               In i (map fst (finditer Uci.uci_pattern text)) ->
               In j (map fst (finditer Uci.uci_pattern text)) ->
               (i < j)%nat -> (i + 14 <= j)%nat).
    { intros i j Hi Hj. apply in_map_iff in Hi, Hj.
      destruct Hi as ([i' t] & <- & Hi), Hj as ([j' t'] & <- & Hj).
      now apply (finditer_gap text i' j' t t'). }
    assert (Hb : forall i, In i (map fst (finditer Uci.uci_pattern text)) ->
                           (i <= length text - 13)%nat
                           /\ (13 <= length text)%nat).
    { intros i Hi. apply in_map_iff in Hi. destruct Hi as ([i' t] & <- & Hi).
      destruct (finditer_sound text i' t Hi)
        as (a & post & Ht & -> & Hlen & _).
      cbn [fst]. rewrite Ht, !length_app. lia. }
    destruct (map fst (finditer Uci.uci_pattern text)) as [|x l];
      [cbn [length]; lia|].
    pose proof (gap_count (length text - 13) l x Hs Hgap
                  (fun i Hi => proj1 (Hb i Hi))) as Hc.
    destruct (Hb x (or_introl eq_refl)) as [_ H13].
    cbn [length]. lia. }
  split; [exact Hcount|].
  intro Hshort.
  assert (Hnil : findall Uci.uci_pattern text = []).
  { destruct (findall Uci.uci_pattern text); [reflexivity|].
    cbn [length] in Hcount. lia. }
  split; [exact Hnil|]. now rewrite extract_uci_find, Hnil.
Qed.

Lemma candidates_count_witness :
  findall Uci.uci_pattern (str "12345A67890H") = []
  /\ Uci.extract_uci (str "12345A67890H") = Ok None.
Proof.
  apply (proj2 (candidates_count (str "12345A67890H"))). vm_compute. lia.
Defined.

(** ** Reading the text of a document *)

Lemma get_text_loop_firstn (doc : Pdf.document) :
  forall i full_text,
    (i <= 5)%nat ->
    Pdf.get_text_loop i doc full_text
    = Pdf.get_text_loop i (firstn (6 - i) doc) full_text.
Proof.
  induction doc as [|page rest IH]; intros i full_text Hi.
  - now rewrite firstn_nil.
  - replace (6 - i)%nat with (S (5 - i)) by lia.
    cbn [firstn Pdf.get_text_loop].
    destruct (Pdf.get_text page) as [text|e]; [|reflexivity].
    destruct (Nat.eqb_spec i 5) as [->|Hn]; [reflexivity|].
    rewrite IH by lia. replace (6 - S i)%nat with (5 - i)%nat by lia.
    reflexivity.
Qed.

Lemma ocr_loop_firstn (doc : Pdf.document) :
  forall i full_text,
    (i <= 5)%nat ->
    Pdf.ocr_loop i doc full_text
    = Pdf.ocr_loop i (firstn (6 - i) doc) full_text.
Proof.
  induction doc as [|page rest IH]; intros i full_text Hi.
  - now rewrite firstn_nil.
  - replace (6 - i)%nat with (S (5 - i)) by lia.
    cbn [firstn Pdf.ocr_loop].
    destruct (Pdf.image_to_string page) as [text|e]; [|reflexivity].
    destruct (Nat.eqb_spec i 5) as [->|Hn]; [reflexivity|].
    rewrite IH by lia. replace (6 - S i)%nat with (5 - i)%nat by lia.
    reflexivity.
Qed.

(** X10: extract_text_from_pdf and extract_text_from_pdf_ocr read the
    first six pages of the document and no other: what they return and
    print is what they return and print of the document cut after its
    sixth page. *)
Theorem text_of_first_six_pages
  (fitz_open : pystr -> Pdf.outcome Pdf.document)
  (pdf_path : pystr) (doc : Pdf.document) :
  fitz_open pdf_path = Pdf.Returned doc ->
  Pdf.extract_text_from_pdf fitz_open pdf_path
  = Pdf.extract_text_from_pdf
      (fun _ => Pdf.Returned (firstn 6 doc)) pdf_path
  /\ Pdf.extract_text_from_pdf_ocr fitz_open pdf_path
     = Pdf.extract_text_from_pdf_ocr
         (fun _ => Pdf.Returned (firstn 6 doc)) pdf_path.
Proof.
  intro Hopen.
  unfold Pdf.extract_text_from_pdf, Pdf.extract_text_from_pdf_ocr.
  rewrite Hopen.
  rewrite (get_text_loop_firstn doc 0 []), (ocr_loop_firstn doc 0 []) by lia.
  split; reflexivity.
Qed.

Lemma text_of_first_six_pages_witness :
  let page t := {| Pdf.get_text := Pdf.Returned t;
                   Pdf.image_to_string := Pdf.Returned t |} in
  let broken := {| Pdf.get_text := Pdf.Raised Pdf.LibraryError;
                   Pdf.image_to_string := Pdf.Raised Pdf.LibraryError |} in
  let doc := [page (str "a"); page (str "b"); page (str "c"); page (str "d"); page (str "e"); page (str "f");
              broken] in
  Pdf.extract_text_from_pdf (fun _ => Pdf.Returned doc) (str "marks.pdf")
  = Pdf.extract_text_from_pdf
      (fun _ => Pdf.Returned (firstn 6 doc)) (str "marks.pdf").
Proof.
  intros page broken doc.
  exact (proj1 (text_of_first_six_pages
                  (fun _ => Pdf.Returned doc) (str "marks.pdf") doc eq_refl)).
Defined.

Lemma get_text_loop_returns (doc : Pdf.document) :
  forall i full_text texts,
    (i <= 5)%nat ->
    map Pdf.get_text (firstn (6 - i) doc) = map Pdf.Returned texts ->
    Pdf.get_text_loop i doc full_text
    = Pdf.Returned
        (full_text ++ concat (map (fun t => t ++ Pdf.newline) texts)).
Proof.
  induction doc as [|page rest IH]; intros i full_text texts Hi Htexts.
  - rewrite firstn_nil in Htexts. destruct texts; [|discriminate Htexts].
    cbn. now rewrite app_nil_r.
  - replace (6 - i)%nat with (S (5 - i)) in Htexts by lia.
    cbn [firstn map] in Htexts.
    destruct texts as [|t texts]; [discriminate Htexts|].
    cbn [map] in Htexts. injection Htexts as Hpage Hrest.
    cbn [Pdf.get_text_loop map concat]. rewrite Hpage.
    destruct (Nat.eqb_spec i 5) as [->|Hn].
    + cbn [Nat.sub firstn map] in Hrest.
      destruct texts; [|discriminate Hrest].
      cbn [map concat]. now rewrite app_nil_r.
    + rewrite (IH (S i) _ texts) by (try lia; exact Hrest).
      now rewrite <- !app_assoc.
Qed.

Lemma ocr_loop_returns (doc : Pdf.document) :
  forall i full_text texts,
    (i <= 5)%nat ->
    map Pdf.image_to_string (firstn (6 - i) doc) = map Pdf.Returned texts ->
    Pdf.ocr_loop i doc full_text
    = Pdf.Returned
        (full_text
         ++ concat (map (fun t => t ++ Pdf.newline)
                        (filter Uci.truthy texts))).
Proof.
  induction doc as [|page rest IH]; intros i full_text texts Hi Htexts.
  - rewrite firstn_nil in Htexts. destruct texts; [|discriminate Htexts].
    cbn. now rewrite app_nil_r.
  - replace (6 - i)%nat with (S (5 - i)) in Htexts by lia.
    cbn [firstn map] in Htexts.
    destruct texts as [|t texts]; [discriminate Htexts|].
    cbn [map] in Htexts. injection Htexts as Hpage Hrest.
    cbn [Pdf.ocr_loop filter]. rewrite Hpage.
    destruct (Nat.eqb_spec i 5) as [->|Hn].
    + cbn [Nat.sub firstn map] in Hrest.
      destruct texts; [|discriminate Hrest].
      destruct (Uci.truthy t); cbn [filter map concat];
        now rewrite ?app_nil_r.
    + rewrite (IH (S i) _ texts) by (try lia; exact Hrest).
      destruct (Uci.truthy t); cbn [map concat];
        now rewrite <- ?app_assoc.
Qed.

(** X11: when the document opens and each of its first six pages
    yields its text, extract_text_from_pdf returns these texts in page
    order, each followed by a newline, and prints nothing. *)
Theorem extract_text_from_pdf_returns
  (fitz_open : pystr -> Pdf.outcome Pdf.document)
  (pdf_path : pystr) (doc : Pdf.document) (texts : list pystr) :
  fitz_open pdf_path = Pdf.Returned doc ->
  map Pdf.get_text (firstn 6 doc) = map Pdf.Returned texts ->
  Pdf.extract_text_from_pdf fitz_open pdf_path
  = (concat (map (fun t => t ++ Pdf.newline) texts), []).
Proof.
  intros Hopen Htexts. unfold Pdf.extract_text_from_pdf. rewrite Hopen.
  now rewrite (get_text_loop_returns doc 0 [] texts) by (try lia; exact Htexts).
Qed.

Lemma extract_text_from_pdf_returns_witness :
  let page t := {| Pdf.get_text := Pdf.Returned t;
                   Pdf.image_to_string := Pdf.Raised Pdf.LibraryError |} in
  Pdf.extract_text_from_pdf
    (fun _ => Pdf.Returned [page (str "one"); page (str ""); page (str "three")])
    (str "marks.pdf")
  = (str "one" ++ Pdf.newline ++ Pdf.newline ++ str "three" ++ Pdf.newline,
     []).
Proof.
  intro page.
  exact (extract_text_from_pdf_returns
           (fun _ => Pdf.Returned [page (str "one"); page (str ""); page (str "three")])
           (str "marks.pdf") [page (str "one"); page (str ""); page (str "three")]
           [str "one"; str ""; str "three"] eq_refl eq_refl).
Defined.

(** X12: when the document opens and each of its first six pages is
    read by OCR, extract_text_from_pdf_ocr returns the texts that are
    not empty, in page order, each followed by a newline; a page whose
    text is empty adds nothing and still counts among the six. *)
Theorem extract_text_from_pdf_ocr_returns
  (fitz_open : pystr -> Pdf.outcome Pdf.document)
  (pdf_path : pystr) (doc : Pdf.document) (texts : list pystr) :
  fitz_open pdf_path = Pdf.Returned doc ->
  map Pdf.image_to_string (firstn 6 doc) = map Pdf.Returned texts ->
  Pdf.extract_text_from_pdf_ocr fitz_open pdf_path
  = (concat (map (fun t => t ++ Pdf.newline) (filter Uci.truthy texts)), []).
Proof.
  intros Hopen Htexts. unfold Pdf.extract_text_from_pdf_ocr. rewrite Hopen.
  now rewrite (ocr_loop_returns doc 0 [] texts) by (try lia; exact Htexts).
Qed.

Lemma extract_text_from_pdf_ocr_returns_witness :
  let page t := {| Pdf.get_text := Pdf.Raised Pdf.LibraryError;
                   Pdf.image_to_string := Pdf.Returned t |} in
  let doc := [page (str "one"); page (str ""); page (str ""); page (str ""); page (str ""); page (str "six");
              page (str "seven")] in
  Pdf.extract_text_from_pdf_ocr (fun _ => Pdf.Returned doc) (str "marks.pdf")
  = (str "one" ++ Pdf.newline ++ str "six" ++ Pdf.newline, []).
Proof.
  intros page doc.
  exact (extract_text_from_pdf_ocr_returns
           (fun _ => Pdf.Returned doc) (str "marks.pdf") doc
           [str "one"; str ""; str ""; str ""; str ""; str "six"]
           eq_refl eq_refl).
Defined.

Lemma get_text_loop_raises (doc : Pdf.document) :
  forall i full_text p e,
    (i <= 5)%nat -> In p (firstn (6 - i) doc) ->
    Pdf.get_text p = Pdf.Raised e ->
    exists e', Pdf.get_text_loop i doc full_text = Pdf.Raised e'.
Proof.
  induction doc as [|page rest IH]; intros i full_text p e Hi Hin Hp.
  - rewrite firstn_nil in Hin. contradiction.
  - replace (6 - i)%nat with (S (5 - i)) in Hin by lia.
    cbn [firstn In] in Hin. cbn [Pdf.get_text_loop].
    destruct (Pdf.get_text page) as [text|e0] eqn:Hpage; [|eauto].
    destruct Hin as [->|Hin]; [congruence|].
    destruct (Nat.eqb_spec i 5) as [->|Hn]; [contradiction|].
    apply (IH (S i) _ p e); auto; lia.
Qed.

Lemma ocr_loop_raises (doc : Pdf.document) :
  forall i full_text p e,
    (i <= 5)%nat -> In p (firstn (6 - i) doc) ->
    Pdf.image_to_string p = Pdf.Raised e ->
    exists e', Pdf.ocr_loop i doc full_text = Pdf.Raised e'.
Proof.
  induction doc as [|page rest IH]; intros i full_text p e Hi Hin Hp.
  - rewrite firstn_nil in Hin. contradiction.
  - replace (6 - i)%nat with (S (5 - i)) in Hin by lia.
    cbn [firstn In] in Hin. cbn [Pdf.ocr_loop].
    destruct (Pdf.image_to_string page) as [text|e0] eqn:Hpage; [|eauto].
    destruct Hin as [->|Hin]; [congruence|].
    destruct (Nat.eqb_spec i 5) as [->|Hn]; [contradiction|].
    apply (IH (S i) _ p e); auto; lia.
Qed.

(** X13: when the document does not open, or one of its first six
    pages raises, both functions return the empty string and print one
    line: the text of the pages read before is not returned. *)
Theorem text_empty_on_failure
  (fitz_open : pystr -> Pdf.outcome Pdf.document) (pdf_path : pystr) :
  ((exists e, fitz_open pdf_path = Pdf.Raised e)
   \/ (exists doc p e,
         fitz_open pdf_path = Pdf.Returned doc
         /\ In p (firstn 6 doc) /\ Pdf.get_text p = Pdf.Raised e) ->
   exists e,
     Pdf.extract_text_from_pdf fitz_open pdf_path
     = ([], [Pdf.PrintReadError pdf_path e]))
  /\ ((exists e, fitz_open pdf_path = Pdf.Raised e)
      \/ (exists doc p e,
            fitz_open pdf_path = Pdf.Returned doc
            /\ In p (firstn 6 doc) /\ Pdf.image_to_string p = Pdf.Raised e) ->
      exists line,
        Pdf.extract_text_from_pdf_ocr fitz_open pdf_path = ([], [line])).
Proof.
  unfold Pdf.extract_text_from_pdf, Pdf.extract_text_from_pdf_ocr. split.
  - intros [[e He] | (doc & p & e & Hopen & Hin & Hp)].
    + rewrite He. eauto.
    + rewrite Hopen.
      destruct (get_text_loop_raises doc 0 [] p e) as [e' ->]; eauto; lia.
  - intros [[e He] | (doc & p & e & Hopen & Hin & Hp)].
    + rewrite He. destruct e; eauto.
    + rewrite Hopen.
      destruct (ocr_loop_raises doc 0 [] p e) as [e' ->]; auto; try lia.
      destruct e'; eauto.
Qed.

Lemma text_empty_on_failure_witness :
  let good := {| Pdf.get_text := Pdf.Returned (str "page one");
                 Pdf.image_to_string := Pdf.Returned (str "page one") |} in
  let bad := {| Pdf.get_text := Pdf.Raised Pdf.LibraryError;
                Pdf.image_to_string :=
                  Pdf.Raised Pdf.TesseractNotFoundError |} in
  fst (Pdf.extract_text_from_pdf
         (fun _ => Pdf.Returned [good; bad]) (str "marks.pdf")) = []
  /\ fst (Pdf.extract_text_from_pdf_ocr
            (fun _ => Pdf.Returned [good; bad]) (str "marks.pdf")) = [].
Proof.
  intros good bad.
  pose proof (text_empty_on_failure
                (fun _ => Pdf.Returned [good; bad]) (str "marks.pdf"))
    as [H1 H2].
  split.
  - destruct H1 as [e ->]; [|reflexivity].
    right. exists [good; bad], bad, Pdf.LibraryError.
    repeat split. cbn. auto.
  - destruct H2 as [line ->]; [|reflexivity].
    right. exists [good; bad], bad, Pdf.TesseractNotFoundError.
    repeat split. cbn. auto.
Defined.

(** ** Splitting a document *)

Lemma extract_uci_some_truthy (text u : pystr) :
  Uci.extract_uci text = Ok (Some u) -> Uci.truthy u = true.
Proof.
  rewrite extract_uci_find. intro H. injection H as H.
  apply find_some in H. now apply accepts_truthy.
Qed.

Lemma file_name_inj (u u' exam_board : pystr) :
  Pdf.file_name u exam_board = Pdf.file_name u' exam_board -> u = u'.
Proof. unfold Pdf.file_name. apply app_inv_tail. Qed.

Lemma split_loop_sound (save : pystr -> pystr -> nat -> Pdf.outcome unit)
  (output_dir exam_board : pystr) (doc : Pdf.document) :
  forall i d n k,
    In (Pdf.Save d n k)
       (fst (Pdf.split_loop save output_dir exam_board i doc)) ->
    d = output_dir /\ (i <= k)%nat
    /\ exists u, Pdf.page_uci doc (k - i) u /\ n = Pdf.file_name u exam_board.
Proof.
  induction doc as [|page rest IH]; intros i d n k Hin; [contradiction|].
  assert (Hrest : In (Pdf.Save d n k)
                     (fst (Pdf.split_loop save output_dir exam_board
                             (S i) rest)) ->
                  d = output_dir /\ (i <= k)%nat
                  /\ exists u, Pdf.page_uci (page :: rest) (k - i) u
                               /\ n = Pdf.file_name u exam_board).
  { intro H.
    destruct (IH _ _ _ _ H) as (-> & Hk & u' & (p & t & Hn & Ho & He) & ->).
    split; [reflexivity|]. split; [lia|].
    exists u'. split; [|reflexivity]. exists p, t.
    replace (k - i)%nat with (S (k - S i)) by lia. auto. }
  cbn [Pdf.split_loop] in Hin.
  destruct (Pdf.image_to_string page) as [text|e] eqn:Hocr; [|contradiction].
  destruct (Uci.extract_uci text) as [[u|]|e] eqn:Hres; [| |contradiction].
  - rewrite (extract_uci_some_truthy text u Hres) in Hin.
    destruct (save output_dir (Pdf.file_name u exam_board) i) as [x|e];
      [|contradiction].
    destruct (Pdf.split_loop save output_dir exam_board (S i) rest)
      as [events r].
    cbn [fst app In] in *. destruct Hin as [H | [H | Hin]].
    + injection H as <- <- <-. split; [reflexivity|]. split; [lia|].
      exists u. split; [|reflexivity].
      rewrite Nat.sub_diag. exists page, text. auto.
    + discriminate H.
    + auto.
  - destruct (Pdf.split_loop save output_dir exam_board (S i) rest)
      as [events r].
    cbn [fst app] in *. auto.
Qed.

Lemma split_saves (path_exists : pystr -> bool)
  (makedirs : pystr -> Pdf.outcome unit)
  (save : pystr -> pystr -> nat -> Pdf.outcome unit)
  (fitz_open : pystr -> Pdf.outcome Pdf.document)
  (pdf_path output_dir exam_board d n : pystr) (k : nat) :
  In (Pdf.Save d n k)
     (fst (Pdf.split_pdf_by_uci path_exists makedirs save fitz_open
             pdf_path output_dir exam_board)) ->
  d = output_dir
  /\ exists doc u,
       fitz_open pdf_path = Pdf.Returned doc
       /\ Pdf.page_uci doc k u /\ n = Pdf.file_name u exam_board.
Proof.
  unfold Pdf.split_pdf_by_uci. intro Hin.
  assert (Hloop : forall doc,
             fitz_open pdf_path = Pdf.Returned doc ->
             In (Pdf.Save d n k)
                (fst (Pdf.split_loop save output_dir exam_board 0 doc)) ->
             d = output_dir
             /\ exists doc u,
                  fitz_open pdf_path = Pdf.Returned doc
                  /\ Pdf.page_uci doc k u
                  /\ n = Pdf.file_name u exam_board).
  { intros doc Hopen H.
    destruct (split_loop_sound _ _ _ _ _ _ _ _ H) as (-> & _ & u & Hu & ->).
    rewrite Nat.sub_0_r in Hu. split; [reflexivity|]. exists doc, u. auto. }
  destruct (negb (path_exists output_dir));
    [destruct (makedirs output_dir) as [x|e]; [|contradiction]|];
    (destruct (fitz_open pdf_path) as [doc|e];
     [ specialize (Hloop doc eq_refl);
       destruct (Pdf.split_loop save output_dir exam_board 0 doc)
         as [events r];
       cbn [fst app In] in *
     | cbn [fst In] in Hin ]).
  - destruct Hin as [H|H]; [discriminate H | auto].
  - destruct Hin as [H|[]]. discriminate H.
  - auto.
  - contradiction.
Qed.


(** X15: two files that split_pdf_by_uci saves under one name hold
    pages with the same UCI. *)
Theorem split_same_name_same_uci (path_exists : pystr -> bool)
  (makedirs : pystr -> Pdf.outcome unit)
  (save : pystr -> pystr -> nat -> Pdf.outcome unit)
  (fitz_open : pystr -> Pdf.outcome Pdf.document)
  (pdf_path output_dir exam_board d d' n : pystr) (i j : nat) :
  let events := fst (Pdf.split_pdf_by_uci path_exists makedirs save
                       fitz_open pdf_path output_dir exam_board) in
  In (Pdf.Save d n i) events -> In (Pdf.Save d' n j) events ->
  exists doc u,
    fitz_open pdf_path = Pdf.Returned doc
    /\ Pdf.page_uci doc i u /\ Pdf.page_uci doc j u.
Proof.
  intros events Hi Hj.
  destruct (split_saves _ _ _ _ _ _ _ _ _ _ Hi)
    as (_ & doc & u & Hopen & Hu & Hn).
  destruct (split_saves _ _ _ _ _ _ _ _ _ _ Hj)
    as (_ & doc' & u' & Hopen' & Hu' & Hn').
  rewrite Hopen in Hopen'. injection Hopen' as <-.
  rewrite Hn in Hn'. apply file_name_inj in Hn'. subst u'.
  exists doc, u. auto.
Qed.


Lemma split_same_name_same_uci_witness :
  exists doc u,
    Sample.fitz_open (str "marks.pdf") = Pdf.Returned doc
    /\ Pdf.page_uci doc 0 u /\ Pdf.page_uci doc 1 u.
Proof.
  apply (split_same_name_same_uci Sample.no_directory Sample.makedirs
           Sample.save Sample.fitz_open
           (str "marks.pdf") (str "out") (str "OCR")
           (str "out") (str "out") (str "12345A678901H_OCR.pdf") 0 1);
    vm_compute; tauto.
Defined.

Lemma split_loop_complete (save : pystr -> pystr -> nat -> Pdf.outcome unit)
  (output_dir exam_board : pystr) (doc : Pdf.document) :
  forall i,
    (forall p, In p doc -> exists t, Pdf.image_to_string p = Pdf.Returned t) ->
    (forall n k, save output_dir n k = Pdf.Returned tt) ->
    snd (Pdf.split_loop save output_dir exam_board i doc) = Pdf.Returned tt
    /\ forall k u,
         Pdf.page_uci doc k u ->
         In (Pdf.Save output_dir (Pdf.file_name u exam_board) (i + k))
            (fst (Pdf.split_loop save output_dir exam_board i doc)).
Proof.
  induction doc as [|page rest IH]; intros i Hread Hsave.
  - split; [reflexivity|].
    intros k u (p & t & Hn & _). destruct k; discriminate Hn.
  - cbn [Pdf.split_loop].
    destruct (Hread page (or_introl eq_refl)) as [text Hocr]. rewrite Hocr.
    rewrite extract_uci_find.
    destruct (IH (S i) (fun p Hp => Hread p (or_intror Hp)) Hsave)
      as [Hr Hs].
    assert (Hsaved :
      exists saved,
        match find Spec.accepts (findall Uci.uci_pattern text) with
        | Some uci =>
            if Uci.truthy uci
            then
              match save output_dir (Pdf.file_name uci exam_board) i with
              | Pdf.Returned _ =>
                  Pdf.Returned
                    [Pdf.Save output_dir (Pdf.file_name uci exam_board) i;
                     Pdf.PrintExtracted uci i]
              | Pdf.Raised e => Pdf.Raised e
              end
            else Pdf.Returned []
        | None => Pdf.Returned []
        end = Pdf.Returned saved
        /\ forall u, Uci.extract_uci text = Ok (Some u) ->
                     In (Pdf.Save output_dir (Pdf.file_name u exam_board) i)
                        saved).
    { destruct (find Spec.accepts (findall Uci.uci_pattern text))
        as [uci|] eqn:E.
      - rewrite Hsave.
        assert (Ht : Uci.truthy uci = true)
          by (apply (extract_uci_some_truthy text);
              now rewrite extract_uci_find, E).
        rewrite Ht. eexists. split; [reflexivity|].
        intros u Hu. rewrite extract_uci_find, E in Hu.
        injection Hu as <-. now left.
      - eexists. split; [reflexivity|].
        intros u Hu. rewrite extract_uci_find, E in Hu. discriminate Hu. }
    destruct Hsaved as (saved & -> & Hin).
    destruct (Pdf.split_loop save output_dir exam_board (S i) rest)
      as [events r]. cbn [fst snd] in *.
    split; [exact Hr|].
    intros k u (p & t & Hn & Ho & He). apply in_or_app.
    destruct k as [|k].
    + left. cbn [nth_error] in Hn. injection Hn as <-.
      rewrite Hocr in Ho. injection Ho as <-.
      rewrite Nat.add_0_r. now apply Hin.
    + right. replace (i + S k)%nat with (S i + k)%nat by lia.
      apply Hs. exists p, t. auto.
Qed.

(** X16: when the output directory exists or is made, the document
    opens, OCR reads every page and every file is saved,
    split_pdf_by_uci ends without exception and has saved every page
    on which extract_uci finds a UCI, under the name of that UCI: of
    two such pages with the same UCI, both are saved under one name. *)
Theorem split_saves_every_uci_page (path_exists : pystr -> bool)
  (makedirs : pystr -> Pdf.outcome unit)
  (save : pystr -> pystr -> nat -> Pdf.outcome unit)
  (fitz_open : pystr -> Pdf.outcome Pdf.document)
  (pdf_path output_dir exam_board : pystr) (doc : Pdf.document) :
  path_exists output_dir = true \/ makedirs output_dir = Pdf.Returned tt ->
  fitz_open pdf_path = Pdf.Returned doc ->
  (forall p, In p doc -> exists t, Pdf.image_to_string p = Pdf.Returned t) ->
  (forall n k, save output_dir n k = Pdf.Returned tt) ->
  snd (Pdf.split_pdf_by_uci path_exists makedirs save fitz_open pdf_path
         output_dir exam_board) = Pdf.Returned tt
  /\ forall k u,
       Pdf.page_uci doc k u ->
       In (Pdf.Save output_dir (Pdf.file_name u exam_board) k)
          (fst (Pdf.split_pdf_by_uci path_exists makedirs save fitz_open
                  pdf_path output_dir exam_board)).
Proof.
  intros Hdir Hopen Hread Hsave. unfold Pdf.split_pdf_by_uci.
  assert (Hmade : exists made,
             (if negb (path_exists output_dir)
              then
                match makedirs output_dir with
                | Pdf.Returned _ => Pdf.Returned [Pdf.Makedirs output_dir]
                | Pdf.Raised e => Pdf.Raised e
                end
              else Pdf.Returned []) = Pdf.Returned made).
  { destruct (path_exists output_dir); cbn [negb]; [eauto|].
    destruct Hdir as [H | ->]; [discriminate H | eauto]. }
  destruct Hmade as [made ->]. rewrite Hopen.
  destruct (split_loop_complete save output_dir exam_board doc 0 Hread Hsave)
    as [Hr Hs].
  destruct (Pdf.split_loop save output_dir exam_board 0 doc) as [events r].
  cbn [fst snd] in *. split; [exact Hr|].
  intros k u Hu. apply in_or_app. right. exact (Hs k u Hu).
Qed.

Lemma split_saves_every_uci_page_witness :
  let events := fst (Pdf.split_pdf_by_uci Sample.no_directory
                       Sample.makedirs Sample.save
                       Sample.fitz_open (str "marks.pdf") (str "out")
                       (str "OCR")) in
  In (Pdf.Save (str "out") (str "12345A678901H_OCR.pdf") 0) events
  /\ In (Pdf.Save (str "out") (str "12345A678901H_OCR.pdf") 1) events.
Proof.
  intro events.
  destruct (split_saves_every_uci_page Sample.no_directory Sample.makedirs
              Sample.save Sample.fitz_open
              (str "marks.pdf") (str "out") (str "OCR") Sample.marks
              (or_intror eq_refl) eq_refl) as [_ Hs].
  - intros p Hp. cbn in Hp.
    destruct Hp as [<-|[<-|[<-|[<-|[]]]]]; eexists; reflexivity.
  - reflexivity.
  - split.
    + apply (Hs 0%nat (str "12345A678901H")). eexists _, _.
      repeat split; vm_compute; reflexivity.
    + apply (Hs 1%nat (str "12345A678901H")). eexists _, _.
      repeat split; vm_compute; reflexivity.
Defined.

Lemma split_loop_failure (save : pystr -> pystr -> nat -> Pdf.outcome unit)
  (output_dir exam_board : pystr) (doc : Pdf.document) :
  forall i k p e,
    nth_error doc k = Some p ->
    Pdf.image_to_string p = Pdf.Raised e
    \/ (exists t u,
          Pdf.image_to_string p = Pdf.Returned t
          /\ Uci.extract_uci t = Ok (Some u)
          /\ save output_dir (Pdf.file_name u exam_board) (i + k)%nat
             = Pdf.Raised e) ->
    (forall j q, (j < k)%nat -> nth_error doc j = Some q ->
                 exists t, Pdf.image_to_string q = Pdf.Returned t) ->
    (forall n j, (j < k)%nat ->
                 save output_dir n (i + j)%nat = Pdf.Returned tt) ->
    Pdf.split_loop save output_dir exam_board i doc
    = (fst (Pdf.split_loop save output_dir exam_board i (firstn k doc)),
       Pdf.Raised e).
Proof.
  induction doc as [|page rest IH]; intros i k p e Hk Hp Hbefore Hsave.
  - destruct k; discriminate Hk.
  - destruct k as [|k].
    + cbn [nth_error] in Hk. injection Hk as ->.
      cbn [Pdf.split_loop firstn fst].
      destruct Hp as [-> | (t & u & -> & Hu & Hs)]; [reflexivity|].
      rewrite Hu, (extract_uci_some_truthy t u Hu).
      rewrite Nat.add_0_r in Hs. now rewrite Hs.
    + cbn [nth_error] in Hk.
      destruct (Hbefore 0%nat page ltac:(lia) eq_refl) as [text Hocr].
      cbn [Pdf.split_loop firstn]. rewrite Hocr, extract_uci_find.
      rewrite (IH (S i) k p e Hk).
      * destruct (find Spec.accepts (findall Uci.uci_pattern text))
          as [uci|]; [destruct (Uci.truthy uci)|];
          try (pose proof (Hsave (Pdf.file_name uci exam_board) 0%nat
                             ltac:(lia)) as H0;
               rewrite Nat.add_0_r in H0; rewrite H0);
          destruct (Pdf.split_loop save output_dir exam_board (S i)
                      (firstn k rest)); reflexivity.
      * replace (S i + k)%nat with (i + S k)%nat by lia. exact Hp.
      * intros j q Hj Hq. apply (Hbefore (S j) q); [lia | exact Hq].
      * intros n j Hj. replace (S i + j)%nat with (i + S j)%nat by lia.
        apply Hsave. lia.
Qed.

(** X17: when the output directory exists or is made, the document
    opens, the pages before page k are read and saved, and then OCR
    raises on page k, or the saving of page k does, split_pdf_by_uci
    raises that exception; it has saved by then what it saves of the k
    pages before, and nothing of page k or a later page. *)
Theorem split_stops_at_failure (path_exists : pystr -> bool)
  (makedirs : pystr -> Pdf.outcome unit)
  (save : pystr -> pystr -> nat -> Pdf.outcome unit)
  (fitz_open : pystr -> Pdf.outcome Pdf.document)
  (pdf_path output_dir exam_board : pystr) (doc : Pdf.document)
  (k : nat) (p : Pdf.page) (e : Pdf.error) :
  path_exists output_dir = true \/ makedirs output_dir = Pdf.Returned tt ->
  fitz_open pdf_path = Pdf.Returned doc ->
  nth_error doc k = Some p ->
  Pdf.image_to_string p = Pdf.Raised e
  \/ (exists t u,
        Pdf.image_to_string p = Pdf.Returned t
        /\ Uci.extract_uci t = Ok (Some u)
        /\ save output_dir (Pdf.file_name u exam_board) k = Pdf.Raised e) ->
  (forall j q, (j < k)%nat -> nth_error doc j = Some q ->
               exists t, Pdf.image_to_string q = Pdf.Returned t) ->
  (forall n j, (j < k)%nat -> save output_dir n j = Pdf.Returned tt) ->
  Pdf.split_pdf_by_uci path_exists makedirs save fitz_open pdf_path
    output_dir exam_board
  = (fst (Pdf.split_pdf_by_uci path_exists makedirs save
            (fun _ => Pdf.Returned (firstn k doc)) pdf_path
            output_dir exam_board),
     Pdf.Raised e).
Proof.
  intros Hdir Hopen Hk Hp Hbefore Hsave. unfold Pdf.split_pdf_by_uci.
  assert (Hmade : exists made,
             (if negb (path_exists output_dir)
              then
                match makedirs output_dir with
                | Pdf.Returned _ => Pdf.Returned [Pdf.Makedirs output_dir]
                | Pdf.Raised e => Pdf.Raised e
                end
              else Pdf.Returned []) = Pdf.Returned made).
  { destruct (path_exists output_dir); cbn [negb]; [eauto|].
    destruct Hdir as [H | ->]; [discriminate H | eauto]. }
  destruct Hmade as [made ->]. rewrite Hopen.
  rewrite (split_loop_failure save output_dir exam_board doc 0 k p e Hk Hp
             Hbefore Hsave).
  destruct (Pdf.split_loop save output_dir exam_board 0 (firstn k doc)).
  reflexivity.
Qed.

Lemma split_stops_at_failure_witness :
  Pdf.split_pdf_by_uci Sample.no_directory Sample.makedirs Sample.save
    (fun _ => Pdf.Returned Sample.torn)
    (str "marks.pdf") (str "out") (str "OCR")
  = ([Pdf.Makedirs (str "out");
      Pdf.Save (str "out") (str "12345A678901H_OCR.pdf") 0;
      Pdf.PrintExtracted (str "12345A678901H") 0],
     Pdf.Raised Pdf.LibraryError).
Proof.
  apply (split_stops_at_failure Sample.no_directory Sample.makedirs
           Sample.save
           (fun _ => Pdf.Returned Sample.torn) (str "marks.pdf")
           (str "out") (str "OCR") Sample.torn 1 Sample.unreadable
           Pdf.LibraryError (or_intror eq_refl) eq_refl eq_refl
           (or_introl eq_refl)).
  - intros j q Hj Hq. destruct j as [|j]; [|lia].
    injection Hq as <-. eexists. reflexivity.
  - reflexivity.
Defined.

(** X18: every file that main saves lies in "output_pdfs" and is named
    by the valid UCI of its page followed by "_OCR.pdf", 21 characters
    in all. *)
Theorem main_saves (path_exists : pystr -> bool)
  (makedirs : pystr -> Pdf.outcome unit)
  (save : pystr -> pystr -> nat -> Pdf.outcome unit)
  (fitz_open : pystr -> Pdf.outcome Pdf.document)
  (d n : pystr) (k : nat) :
  In (Pdf.Save d n k) (fst (Pdf.main path_exists makedirs save fitz_open)) ->
  d = str "output_pdfs"
  /\ length n = 21%nat
  /\ exists u, Uci.is_valid_uci u = Ok true /\ n = u ++ str "_OCR.pdf".
Proof.
  unfold Pdf.main. intro Hin.
  destruct (split_saves _ _ _ _ _ _ _ _ _ _ Hin)
    as (-> & doc & u & _ & (p & t & _ & _ & He) & ->).
  rewrite extract_uci_find in He. injection He as He.
  apply find_some in He. destruct He as [_ Hacc].
  assert (Hv : Uci.is_valid_uci u = Ok true) by now rewrite accepts_iff, Hacc.
  split; [reflexivity|]. split; [|exists u; split; [exact Hv | reflexivity]].
  pose proof Hv as Hs. apply valid_spec in Hs. destruct Hs as [Hshape _].
  unfold Pdf.file_name. rewrite length_app, (shape_length u Hshape).
  reflexivity.
Qed.

Lemma main_saves_witness :
  length (str "12345J678901E_OCR.pdf") = 21%nat.
Proof.
  apply (main_saves Sample.no_directory Sample.makedirs Sample.save
           Sample.fitz_open
           (str "output_pdfs") (str "12345J678901E_OCR.pdf") 3).
  vm_compute. tauto.
Defined.
